(** * creative_project: covariate validation, convergence check, model set-up

  A shallow embedding of the parts of the [creative_project] package that
  decide when the optimisation loop stops ([Validators] in
  [_validators.py]), how a surrogate model is selected ([_set_GP_model] in
  [_modeling.py]) and how an instance is built ([CreativeProject.__init__]).

  Python floats and the entries of [torch.double] tensors are IEEE 754
  binary64 numbers: they are modelled by Rocq's primitive floats, whose
  operations are the same roundings.  Python integers are [Z]. *)

From Stdlib Require Import ZArith List Bool String Lia.
From Stdlib Require Import Floats.
Import ListNotations.

Set Warnings "-inexact-float,-register-all".
Local Open Scope Z_scope.

(** ** Python values, exceptions and results *)

Module Py.

(** The Python values that can reach the validators. *)
Inductive pyval : Type :=
| PyNone
| PyBool (b : bool)
| PyInt (z : Z)
| PyFloat (f : float)
| PyStr (s : string)
| PyList (items : list pyval)
| PyTuple (items : list pyval).

(** The text of an exception: string literals, and [str(v)] of a value,
    which is kept as the value it prints. *)
Inductive text : Type :=
| Lit (s : string)
| StrOf (v : pyval).

Definition message : Type := list text.

(** The exception classes the modelled code raises, each with its message. *)
Inductive exn : Type :=
| ValueError (msg : message)
| TypeError (msg : message)
| RuntimeError (msg : message)
| AttributeError (msg : message)
| Exception (msg : message).

Inductive result (A : Type) : Type :=
| Ok (a : A)
| Err (e : exn).
Arguments Ok {A} a.
Arguments Err {A} e.

Definition rbind {A B} (r : result A) (k : A -> result B) : result B :=
  match r with
  | Ok a => k a
  | Err e => Err e
  end.

(** [isinstance(v, tuple)]. *)
Definition isinstance_tuple (v : pyval) : bool :=
  match v with PyTuple _ => true | _ => false end.

(** [isinstance(v, (float, int))]; [bool] is a subclass of [int]. *)
Definition isinstance_float_int (v : pyval) : bool :=
  match v with
  | PyFloat _ | PyInt _ | PyBool _ => true
  | _ => false
  end.

(** [len(x)] as a Python integer. *)
Definition len {A} (x : list A) : Z := Z.of_nat (List.length x).

(** An index of a slice, clamped to [0 .. n] as Python does. *)
Definition clamp_index (n i : Z) : Z :=
  if i <? 0 then Z.max 0 (n + i) else Z.min i n.

(** [x[start:stop]], a bound left out being [None]. *)
Definition slice {A} (x : list A) (start stop : option Z) : list A :=
  let n := len x in
  let lo := match start with Some i => clamp_index n i | None => 0 end in
  let hi := match stop with Some j => clamp_index n j | None => n end in
  firstn (Z.to_nat (hi - lo)) (skipn (Z.to_nat lo) x).

(** [sum(bs)] of a list of booleans: [True] counts 1. *)
Definition sum_bools (bs : list bool) : Z :=
  fold_left (fun acc (b : bool) => acc + (if b then 1 else 0)) bs 0.

End Py.
Import Py.

(** ** Tensors

  [best_response_value] and [train_Y] are [num_obs x 1] tensors and are
  kept as the list of their rows' single entry; [train_X] is a
  [num_obs x num_covars] tensor. *)

Module Torch.

Definition tensor_col : Type := list float.
Definition tensor_2d : Type := list (list float).

(** [torch.cat((a, b), dim=1)] of two one-column tensors: the row counts
    must agree, and each row of the result holds the two entries. *)
Definition cat_dim1 (a b : tensor_col) : result (list (float * float)) :=
  if (List.length a =? List.length b)%nat then Ok (combine a b)
  else Err (RuntimeError [Lit "Sizes of tensors must match except in dimension 1"]).

(** [np.diff(t, axis=1)] of a two-column array: one column, second entry
    minus first. *)
Definition np_diff_axis1 (t : list (float * float)) : tensor_col :=
  map (fun row => (snd row - fst row)%float) t.

(** [a / b] of two one-column arrays; rows broadcast when one side has a
    single row. *)
Definition np_divide (a b : tensor_col) : result tensor_col :=
  if (List.length a =? List.length b)%nat
  then Ok (map (fun p => (fst p / snd p)%float) (combine a b))
  else match a, b with
       | [x], _ => Ok (map (fun y => (x / y)%float) b)
       | _, [y] => Ok (map (fun x => (x / y)%float) a)
       | _, _ => Err (ValueError [Lit "operands could not be broadcast together"])
       end.

(** What the shape validators read of an array argument (a torch tensor, a
    numpy array or a pandas dataframe): whether it is a
    [torch.DoubleTensor], and its [shape]. *)
Record array : Type := mkArray {
  is_DoubleTensor : bool;
  shape : list Z
}.

(** A validator of shapes returns, or raises the [IndexError] of indexing a
    shape past its end. *)
Inductive outcome (A : Type) : Type :=
| Returns (a : A)
| RaisesIndexError.
Arguments Returns {A} a.
Arguments RaisesIndexError {A}.

Definition obind {A B} (o : outcome A) (k : A -> outcome B) : outcome B :=
  match o with
  | Returns a => k a
  | RaisesIndexError => RaisesIndexError
  end.

(** [s[i]] of a shape. *)
Definition shape_at (s : list Z) (i : nat) : outcome Z :=
  match nth_error s i with
  | Some d => Returns d
  | None => RaisesIndexError
  end.

(** The shape of a two-dimensional tensor kept as its rows; a tensor with no
    row is taken to have no column. *)
Definition shape_2d (t : tensor_2d) : list Z :=
  [len t; match t with [] => 0 | row :: _ => len row end].

End Torch.
Import Torch.

(** ** The instance state of [CreativeProject]

    Objects of the external libraries (fitted models, likelihoods,
    acquisition and sampling functions) are only stored and handed on by the
    modelled code; they are kept by reference. *)

Inductive pyobj : Type := ObjRef (id : positive).

(** The dictionary [self.model]; [__init__] creates it with all seven keys
    and no key is ever removed. *)
Module ModelDict.
Record t : Type := mk {
  model_type : string;
  model : option pyobj;
  likelihood : option pyobj;
  loglikelihood : option pyobj;
  covars_proposed_iter : Z;
  covars_sampled_iter : Z;
  response_sampled_iter : Z
}.
End ModelDict.

(** The dictionary [self.acq_func]. *)
Module AcqFuncDict.
Record t : Type := mk {
  type : string;
  object : option pyobj
}.
End AcqFuncDict.

(** The dictionary [self.sampling]. *)
Module SamplingDict.
Record t : Type := mk {
  method : string;
  response_func : option pyobj
}.
End SamplingDict.

(** The attributes of an instance.  An attribute holding [None] is [None]
    here. *)
Record instance : Type := mkInstance {
  device : string;
  dtype : string;
  initial_guess : tensor_2d;
  covar_bounds : tensor_2d;
  covars : pyval;
  model : ModelDict.t;
  nu : option float;
  acq_func : AcqFuncDict.t;
  sampling : SamplingDict.t;
  train_X : option tensor_2d;
  train_Y : option tensor_col;
  proposed_X : option tensor_2d;
  best_response_value : option tensor_col;
  covars_best_response_value : option tensor_2d;
  GP_kernel_mapping_covar_identification : option pyobj
}.

Definition set_model (md : ModelDict.t) (self : instance) : instance :=
  mkInstance (device self) (dtype self) (initial_guess self) (covar_bounds self)
    (covars self) md (nu self) (acq_func self) (sampling self)
    (train_X self) (train_Y self) (proposed_X self)
    (best_response_value self) (covars_best_response_value self)
    (GP_kernel_mapping_covar_identification self).

(** ** Methods: a computation on [self] that returns or raises

    A method reads and writes the attributes of [self] and either returns a
    value or raises; the state reached when an exception is raised is kept. *)

Definition M (A : Type) : Type := instance -> result A * instance.

Definition ret {A} (a : A) : M A := fun self => (Ok a, self).

Definition raise {A} (e : exn) : M A := fun self => (Err e, self).

Definition bind {A B} (m : M A) (k : A -> M B) : M B :=
  fun self =>
    match m self with
    | (Ok a, self') => k a self'
    | (Err e, self') => (Err e, self')
    end.

(** A call into code that does not touch [self]. *)
Definition lift {A} (r : result A) : M A := fun self => (r, self).

Definition get_attr {A} (attr : instance -> A) : M A :=
  fun self => (Ok (attr self), self).

Definition set_attr (update : instance -> instance) : M unit :=
  fun self => (Ok tt, update self).

Declare Scope method_scope.
Delimit Scope method_scope with method.
Notation "x <- m ;; k" := (bind m (fun x => k))
  (at level 61, m at next level, right associativity) : method_scope.
Notation "m ;;; k" := (bind m (fun _ => k))
  (at level 61, right associativity) : method_scope.
Local Open Scope method_scope.

(** [t.size()] and the like on an attribute that holds [None]. *)
Definition tensor_attr {A} (attr : instance -> option A) : M A :=
  fun self =>
    match attr self with
    | Some t => (Ok t, self)
    | None => (Err (AttributeError [Lit "'NoneType' object has no attribute 'size'"]), self)
    end.

(** ** [_validators.py]: class [Validators] *)

Module Validators.

(** The second loop of [__validate_covars] over one entry: every element
    must be a float or an int. *)
Fixpoint check_elements (entry : list pyval) : result unit :=
  match entry with
  | [] => Ok tt
  | el :: rest =>
      if negb (isinstance_float_int el)
      then Err (TypeError
             [Lit "kre8_core.creative_project._validators.Validator.__validate_covars: tuple element ";
              StrOf el;
              Lit " in covars list is neither of type float or int"])
      else check_elements rest
  end.

(** The first loop: every entry must be a tuple. *)
Fixpoint check_tuples (entries : list pyval) : result unit :=
  match entries with
  | [] => Ok tt
  | entry :: rest =>
      if negb (isinstance_tuple entry)
      then Err (TypeError
             [Lit "kre8_core.creative_project._validators.Validator.__validate_covars: entry in covars list is not tuple"])
      else check_tuples rest
  end.

(** The second loop, over the entries.  It runs after the first loop has
    passed, so each entry is a tuple and the last case does not arise. *)
Fixpoint check_entries (entries : list pyval) : result unit :=
  match entries with
  | [] => Ok tt
  | PyTuple els :: rest => rbind (check_elements els) (fun _ => check_entries rest)
  | _ :: rest => Err (TypeError [Lit "object is not iterable"])
  end.

(** [Validators.__validate_covars(self, covars)]; it reads no attribute. *)
Definition __validate_covars (covars : pyval) : result bool :=
  let valid := false in
  match covars with
  | PyNone =>
      Err (ValueError
        [Lit "kre8_core.creative_project._validators.Validator.__validate_covars: covars is None"])
  | PyList entries =>
      rbind (check_tuples entries) (fun _ =>
      rbind (check_entries entries) (fun _ =>
      let valid := true in
      Ok valid))
  | _ =>
      Err (TypeError
        [Lit "kre8_core.creative_project._validators.Validator.__validate_covars: covars is not list of tuples (not list)"])
  end.

(** [Validators.__continue_iterating_rel_tol_conditions(self, rel_tol,
    rel_tol_steps)], for [rel_tol] a float or [None] and [rel_tol_steps] an
    int or [None]. *)
Definition __continue_iterating_rel_tol_conditions
    (rel_tol : option float) (rel_tol_steps : option Z) : M bool :=
  let continue_iterating := true in
  let rel_tol_steps :=
    if (match rel_tol with Some _ => true | None => false end)
       && (match rel_tol_steps with None => true | Some _ => false end)
    then Some 1 (* leverage the functionality built for rel_tol_steps > 1 *)
    else rel_tol_steps in
  match rel_tol, rel_tol_steps with
  | Some rel_tol, Some rel_tol_steps =>
      best <- tensor_attr best_response_value ;;
      (* only proceed if at least 'rel_tol_steps' iterations have been completed *)
      if len best >=? rel_tol_steps then
        tmp_array <- lift (cat_dim1
                             (slice best (Some (- (rel_tol_steps + 1))) (Some (- 1)))
                             (slice best (Some (- rel_tol_steps)) None)) ;;
        tmp_rel_diff <- lift (np_divide (np_diff_axis1 tmp_array)
                                (slice best (Some (- rel_tol_steps)) None)) ;;
        let below_rel_tol := map (fun rel_dif => (rel_dif <? rel_tol)%float) tmp_rel_diff in
        if sum_bools below_rel_tol =? rel_tol_steps
        then ret false
        else ret continue_iterating
      else ret continue_iterating
  | _, _ => ret continue_iterating
  end.

(** [Validators.__validate_num_covars(self, covars_array)]; it reads
    [self.initial_guess]. *)
Definition __validate_num_covars (covars_array : option array) (self : instance)
    : outcome bool :=
  let valid := false in
  match covars_array with
  | Some covars_array =>
      if len (shape covars_array) >? 1 then
        obind (shape_at (shape covars_array) 1) (fun num_covars =>
        obind (shape_at (shape_2d (initial_guess self)) 1) (fun num_guesses =>
        if num_covars =? num_guesses then Returns true else Returns valid))
      else Returns valid
  | None => Returns valid
  end.

(** [Validators.__validate_training_data(self, train_X, train_Y)]. *)
Definition __validate_training_data (train_X train_Y : option array)
    (self : instance) : outcome bool :=
  let valid := false in
  match train_X, train_Y with
  | Some X, Some Y =>
      if is_DoubleTensor X && is_DoubleTensor Y then
        obind (shape_at (shape X) 0) (fun rows_X =>
        obind (shape_at (shape Y) 0) (fun rows_Y =>
        if rows_X =? rows_Y then
          obind (__validate_num_covars train_X self) (fun same_covars =>
          if same_covars then Returns true else Returns valid)
        else Returns valid))
      else Returns valid
  | _, _ => Returns valid
  end.

(** [Validators.__validate_num_response(self, response_array)]; it reads no
    attribute. *)
Definition __validate_num_response (response_array : option array) : outcome bool :=
  let valid := false in
  match response_array with
  | Some response_array =>
      if len (shape response_array) >? 1 then
        obind (shape_at (shape response_array) 1) (fun num_responses =>
        if num_responses =? 1 then Returns true else Returns valid)
      else Returns valid
  | None => Returns valid
  end.

End Validators.

(** ** [_modeling.py] *)

Module Modeling.

Section WithBoTorch.

(** The calls into BoTorch, GPyTorch and the package's model classes; each
    may raise.  [model_likelihood m] is [m.likelihood]; [state_dict m] is
    [m.state_dict()], which may be [None]; [filter_keys pre cur] is the
    dictionary comprehension keeping the keys of [pre] found in [cur]. *)
Variable SingleTaskGP_transformed :
  option tensor_2d -> option tensor_col -> option pyobj -> result pyobj.
Variable SimpleCustomMaternGP :
  option tensor_2d -> option tensor_col -> option float -> option pyobj -> result pyobj.
Variable model_likelihood : pyobj -> result pyobj.
Variable GaussianLikelihood : unit -> result pyobj.
Variable ExactMarginalLogLikelihood : pyobj -> pyobj -> result pyobj.
Variable state_dict : pyobj -> result (option pyobj).
Variable filter_keys : option pyobj -> option pyobj -> result pyobj.
Variable load_state_dict : pyobj -> pyobj -> result unit.
Variable fit_gpytorch_model : pyobj -> result unit.

(** The message of the last branch of [_set_GP_model]. *)
Definition unknown_model_type (model_type : string) : message :=
  [Lit ("creative_project._modeling._set_GP_model: unknown 'model_type' ("
        ++ model_type
        ++ ") provided. Must be in following list ['Custom', 'SingleTaskGP']")].

(** The branch on [self.model["model_type"]]: the model object, its
    likelihood and the marginal log-likelihood. *)
Definition select_model (kwargs_nu : option float) : M (pyobj * pyobj * pyobj) :=
  self_model <- get_attr model ;;
  X <- get_attr train_X ;;
  Y <- get_attr train_Y ;;
  mapping <- get_attr GP_kernel_mapping_covar_identification ;;
  if String.eqb (ModelDict.model_type self_model) "SingleTaskGP" then
    model_obj <- lift (SingleTaskGP_transformed X Y mapping) ;;
    lh <- lift (model_likelihood model_obj) ;;
    ll <- lift (ExactMarginalLogLikelihood lh model_obj) ;;
    ret (model_obj, lh, ll)
  else if String.eqb (ModelDict.model_type self_model) "Custom" then
    let nu := kwargs_nu in
    model_obj <- lift (SimpleCustomMaternGP X Y nu mapping) ;;
    lh <- lift (GaussianLikelihood tt) ;;
    ll <- lift (ExactMarginalLogLikelihood lh model_obj) ;;
    ret (model_obj, lh, ll)
  else
    raise (Exception (unknown_model_type (ModelDict.model_type self_model))).

(** "add stored model if present": the key ["model"] is always in
    [self.model]. *)
Definition load_stored_model (model_obj : pyobj) : M unit :=
  self_model <- get_attr model ;;
  match ModelDict.model self_model with
  | Some stored =>
      sd <- lift (state_dict stored) ;;
      match sd with
      | Some _ =>
          model_dict <- lift (state_dict model_obj) ;;
          pretrained_dict <- lift (state_dict stored) ;;
          pretrained_dict <- lift (filter_keys pretrained_dict model_dict) ;;
          lift (load_state_dict model_obj pretrained_dict)
      | None => ret tt
      end
  | None => ret tt
  end.

(** [_set_GP_model(self, **kwargs)]; of [kwargs] only ["nu"] is read.  What
    it prints is not part of the state. *)
Definition _set_GP_model (kwargs_nu : option float) : M string :=
  selected <- select_model kwargs_nu ;;
  let '(model_obj, lh, ll) := selected in
  load_stored_model model_obj ;;;
  lift (fit_gpytorch_model ll) ;;;
  set_attr (fun self =>
    set_model
      (ModelDict.mk (ModelDict.model_type (model self))
         (Some model_obj) (Some lh) (Some ll)
         (ModelDict.covars_proposed_iter (model self))
         (ModelDict.covars_sampled_iter (model self))
         (ModelDict.response_sampled_iter (model self)))
      self) ;;;
  ret "Successfully trained GP model"%string.

End WithBoTorch.

End Modeling.

(** ** [__init__.py]: class [CreativeProject] *)

Module CreativeProject.

(** The keyword arguments [__init__] reads with [kwargs.get]. *)
Record kwargs : Type := mkKwargs {
  kw_train_X : option tensor_2d;
  kw_train_Y : option tensor_col;
  kw_nu : option float
}.

Section WithInitializers.

(** [torch.cuda.is_available()]. *)
Variable cuda_is_available : bool.

(** The initializers of [_initializers.py], typed by what [__init__] shows
    of them: [__initialize_from_covars(covars)] returns the initial guess
    and the bounds; [__initialize_training_data(train_X, train_Y)] sets
    [train_X], [train_Y] and [proposed_X]; [__initialize_best_response()]
    sets [best_response_value] and [covars_best_response_value] from the
    training data.  Each may raise. *)
Variable __initialize_from_covars : pyval -> result (tensor_2d * tensor_2d).
Variable __initialize_training_data :
  option tensor_2d -> option tensor_col ->
  result (option tensor_2d * option tensor_col * option tensor_2d).
Variable __initialize_best_response :
  option tensor_2d -> option tensor_col ->
  result (option tensor_col * option tensor_2d).

(** The attribute [GP_kernel_mapping_covar_identification] is not set by the
    lines of [__init__]; it is [None] until an initializer sets it. *)
Definition __init__ (covars : pyval) (model : string) (acq_func : string)
    (kw : kwargs) : result instance :=
  let device := if cuda_is_available then "cuda"%string else "cpu"%string in
  let dtype := "torch.double"%string in
  rbind (__initialize_from_covars covars) (fun guess_bounds =>
  let '(initial_guess, covar_bounds) := guess_bounds in
  let self_model := ModelDict.mk model None None None 0 0 0 in
  let nu := kw_nu kw in
  let self_acq_func := AcqFuncDict.mk acq_func None in
  let sampling_type := "manual"%string in
  let self_sampling := SamplingDict.mk sampling_type None in
  rbind (__initialize_training_data (kw_train_X kw) (kw_train_Y kw)) (fun data =>
  let '(train_X, train_Y, proposed_X) := data in
  rbind (__initialize_best_response train_X train_Y) (fun best =>
  let '(best_response_value, covars_best_response_value) := best in
  Ok (mkInstance device dtype initial_guess covar_bounds covars self_model nu
        self_acq_func self_sampling train_X train_Y proposed_X
        best_response_value covars_best_response_value None)))).

End WithInitializers.

End CreativeProject.

(** ** The stopping rule as the specification words it *)

Module ConvergenceSpec.

(** The relative improvements between consecutive entries of a series,
    each [(later - earlier) / later]. *)
Fixpoint relative_differences (series : list float) : list float :=
  match series with
  | [] => []
  | earlier :: rest =>
      match rest with
      | [] => []
      | later :: _ => ((later - earlier) / later)%float :: relative_differences rest
      end
  end.

(** The last [n] entries of a series that has at least [n]. *)
Definition last_entries (n : Z) (series : list float) : list float :=
  skipn (List.length series - Z.to_nat n) series.

(** Every difference is strictly below the tolerance. *)
Definition all_below (rel_tol : float) (diffs : list float) : bool :=
  forallb (fun d => (d <? rel_tol)%float) diffs.

(** Stop exactly when all [k] relative differences over the last [k + 1]
    entries are below the tolerance. *)
Definition should_continue (rel_tol : float) (k : Z) (series : list float) : bool :=
  negb (all_below rel_tol (relative_differences (last_entries (k + 1) series))).

End ConvergenceSpec.

(** ** The Best-Response Tracker *)

Module BestResponseTracker.

Record ObservationSet : Type := mkObservationSet {
  covariates : list (list float);
  responses : list float
}.

Definition BestResponseSeries : Type := list (float * list float).

Inductive error : Type := EmptyHistoryError.

(** Modelled from the spec: [_max_response.py] ([find_max_response_value])
    is not among the sources, only its unit tests are.  The scan of the
    responses keeps the index and value of the largest response seen; a
    later response takes its place only when it is strictly larger, so the
    earliest of several equal maxima stays. *)
Fixpoint scan (best_index : nat) (best : float) (i : nat) (rest : list float)
    : nat * float :=
  match rest with
  | [] => (best_index, best)
  | r :: rest' =>
      if (best <? r)%float then scan i r (S i) rest'
      else scan best_index best (S i) rest'
  end.

(** Modelled from the spec: [find_max_response_value(train_X, train_Y)],
    missing from the sources, returns the full covariate row of the maximal
    response and that response; it has no result on an empty history. *)
Definition find_max_response_value (X : list (list float)) (Y : list float)
    : option (list float * float) :=
  match Y with
  | [] => None
  | y0 :: rest =>
      let '(i, y) := scan 0%nat y0 1%nat rest in
      Some (nth i X [], y)
  end.

(** Modelled from the spec: the tracker's [update], missing from the
    sources, recomputes the maximum over the whole history and appends one
    entry [(best_value, best_covariates)] to the series; it fails with
    [EmptyHistoryError] on an observation set with no entry. *)
Definition update (series : BestResponseSeries) (obs : ObservationSet)
    : BestResponseSeries + error :=
  match find_max_response_value (covariates obs) (responses obs) with
  | Some (x, y) => inl (series ++ [(y, x)])
  | None => inr EmptyHistoryError
  end.

End BestResponseTracker.

(** ** Concrete data: the fixtures of [tests/conftest.py] and small instances *)

Module Fixtures.

(** [custom_models_simple_training_data_4elements]. *)
Definition train_X_4elements : list (list float) :=
  [[-1.0]; [-1.1]; [-0.5]; [1.0]]%float.
Definition train_Y_4elements : list float := [0.2; 0.15; 0.5; 2.0]%float.

(** [covars_initialization_data]: [covar_complex]. *)
Definition covar_complex : pyval :=
  PyList [PyTuple [PyFloat 0.5; PyInt 0; PyInt 1];
          PyTuple [PyFloat 12.5; PyInt 8; PyInt 15];
          PyTuple [PyInt (-2); PyInt (-4); PyFloat 1.1]].

(** [training_data_covar_complex]: each row is the initial guesses shifted
    by one of [0, -0.5, 1.2]. *)
Definition train_X_covar_complex : list (list float) :=
  map (fun y => map (fun x0 => (x0 + y)%float) [0.5; 12.5; -2.0]%float)
      [0.0; -0.5; 1.2]%float.
Definition train_Y_covar_complex : list float := [1.1; 5.5; 0.1]%float.

(** An instance built without training data, with the given model type and
    best-response series. *)
Definition project (model_type : string) (best : option tensor_col) : instance :=
  mkInstance "cpu" "torch.double" [[0.0]]%float [[-2.0]; [2.0]]%float
    (PyList [PyTuple [PyFloat 0.0; PyFloat (-2.0); PyFloat 2.0]])
    (ModelDict.mk model_type None None None 0 0 0) None
    (AcqFuncDict.mk "EI" None) (SamplingDict.mk "manual" None)
    None None None best None None.

(** A call into the modelling libraries that raises; [_set_GP_model] makes
    no such call before it has looked at the model type. *)
Definition unavailable {A} : result A :=
  Err (RuntimeError [Lit "collaborator not available"]).

(** Modelled from the spec: the initializers of [_initializers.py] are
    missing from the sources.  These are the ones of a project over a
    one-dimensional covariate space [(initial_guess, lower_bound,
    upper_bound)] of floats, built without training data: the validated
    guess and bounds, no observation and no best response yet.  They serve
    to run the constructor on concrete arguments. *)
Definition from_covars_1d (covars : pyval) : result (tensor_2d * tensor_2d) :=
  rbind (Validators.__validate_covars covars) (fun _ =>
  match covars with
  | PyList [PyTuple [PyFloat guess; PyFloat lower; PyFloat upper]] =>
      Ok ([[guess]], [[lower]; [upper]])
  | _ => Err (ValueError [Lit "not a one-dimensional covariate space of floats"])
  end).
Definition no_training_data (X : option tensor_2d) (Y : option tensor_col)
    : result (option tensor_2d * option tensor_col * option tensor_2d) :=
  Ok (None, None, None).
Definition no_best_response (X : option tensor_2d) (Y : option tensor_col)
    : result (option tensor_col * option tensor_2d) :=
  Ok (None, None).

End Fixtures.

(** The instance with another model type, everything else kept. *)
Definition with_model_type (model_type : string) (self : instance) : instance :=
  set_model
    (ModelDict.mk model_type (ModelDict.model (model self))
       (ModelDict.likelihood (model self)) (ModelDict.loglikelihood (model self))
       (ModelDict.covars_proposed_iter (model self))
       (ModelDict.covars_sampled_iter (model self))
       (ModelDict.response_sampled_iter (model self)))
    self.

(** Whether a run ended in an exception. *)
Definition raised {A} (r : result A * instance) : bool :=
  match fst r with
  | Ok _ => false
  | Err _ => true
  end.

(** The instance with another value of [self.nu], everything else kept. *)
Definition with_nu (value : option float) (self : instance) : instance :=
  mkInstance (device self) (dtype self) (initial_guess self) (covar_bounds self)
    (covars self) (model self) value (acq_func self) (sampling self)
    (train_X self) (train_Y self) (proposed_X self)
    (best_response_value self) (covars_best_response_value self)
    (GP_kernel_mapping_covar_identification self).

(** The instance with another acquisition function name, everything else
    kept. *)
Definition with_acq_func_type (name : string) (self : instance) : instance :=
  mkInstance (device self) (dtype self) (initial_guess self) (covar_bounds self)
    (covars self) (model self) (nu self)
    (AcqFuncDict.mk name (AcqFuncDict.object (acq_func self))) (sampling self)
    (train_X self) (train_Y self) (proposed_X self)
    (best_response_value self) (covars_best_response_value self)
    (GP_kernel_mapping_covar_identification self).

(** * Properties *)

(** ** Lists, slices and sums *)

Lemma len_nonneg {A} (x : list A) : 0 <= len x.
Proof. unfold len. lia. Qed.

Lemma sum_bools_acc (bs : list bool) (acc : Z) :
  fold_left (fun a (b : bool) => a + (if b then 1 else 0)) bs acc
  = acc + sum_bools bs.
Proof.
  unfold sum_bools. revert acc.
  induction bs as [|b bs IH]; intros acc; simpl.
  - lia.
  - rewrite IH, (IH (if b then 1 else 0)). lia.
Qed.

Lemma sum_bools_cons (b : bool) (bs : list bool) :
  sum_bools (b :: bs) = (if b then 1 else 0) + sum_bools bs.
Proof. unfold sum_bools at 1. simpl. now rewrite sum_bools_acc. Qed.

Lemma sum_bools_bounds (bs : list bool) : 0 <= sum_bools bs <= len bs.
Proof.
  induction bs as [|b bs IH].
  - unfold sum_bools, len. simpl. lia.
  - rewrite sum_bools_cons. unfold len in *. simpl List.length.
    destruct b; lia.
Qed.

(** The count of [True] reaches the length exactly when every entry is
    [True]. *)
Lemma sum_bools_all {A} (p : A -> bool) (xs : list A) :
  (sum_bools (map p xs) =? len xs) = forallb p xs.
Proof.
  induction xs as [|x xs IH]; [reflexivity|].
  simpl map. rewrite sum_bools_cons. simpl forallb.
  pose proof (sum_bools_bounds (map p xs)) as B.
  unfold len in *. rewrite length_map in B.
  cbn [List.length]. rewrite Nat2Z.inj_succ.
  destruct (p x); cbn [andb].
  - rewrite <- IH.
    destruct (Z.eqb_spec (sum_bools (map p xs)) (Z.of_nat (List.length xs)));
      [apply Z.eqb_eq | apply Z.eqb_neq]; lia.
  - apply Z.eqb_neq. lia.
Qed.

Lemma length_slice {A} (x : list A) (start stop : option Z) :
  List.length (slice x start stop)
  = Nat.min
      (Z.to_nat
         (match stop with Some j => clamp_index (len x) j | None => len x end
          - match start with Some i => clamp_index (len x) i | None => 0 end))
      (List.length x
       - Z.to_nat match start with Some i => clamp_index (len x) i | None => 0 end).
Proof. unfold slice. now rewrite length_firstn, length_skipn. Qed.

(** With [k >= 1] and more than [k] entries, [x[-(k+1):-1]] is the last
    [k + 1] entries without the final one. *)
Lemma slice_earlier (x : list float) (k : Z) :
  1 <= k -> k + 1 <= len x ->
  slice x (Some (- (k + 1))) (Some (- 1))
  = firstn (Z.to_nat k) (ConvergenceSpec.last_entries (k + 1) x).
Proof.
  intros Hk Hn. unfold slice, ConvergenceSpec.last_entries, clamp_index, len in *.
  replace (- (k + 1) <? 0) with true by (symmetry; apply Z.ltb_lt; lia).
  replace (- 1 <? 0) with true by reflexivity.
  f_equal; [|f_equal]; lia.
Qed.

(** ... and [x[-k:]] is the last [k + 1] entries without the first one. *)
Lemma slice_later (x : list float) (k : Z) :
  1 <= k -> k + 1 <= len x ->
  slice x (Some (- k)) None = tl (ConvergenceSpec.last_entries (k + 1) x).
Proof.
  intros Hk Hn. unfold slice, ConvergenceSpec.last_entries, clamp_index, len in *.
  replace (- k <? 0) with true by (symmetry; apply Z.ltb_lt; lia).
  rewrite firstn_all2 by (rewrite length_skipn; lia).
  change (tl ?l) with (skipn 1 l). rewrite skipn_skipn.
  f_equal. lia.
Qed.

Lemma length_last_entries (x : list float) (n : Z) :
  0 <= n <= len x ->
  List.length (ConvergenceSpec.last_entries n x) = Z.to_nat n.
Proof.
  intros H. unfold ConvergenceSpec.last_entries, len in *.
  rewrite length_skipn. lia.
Qed.

Lemma np_divide_same_length (a b : tensor_col) :
  List.length a = List.length b ->
  np_divide a b = Ok (map (fun p => (fst p / snd p)%float) (combine a b)).
Proof.
  intros H. unfold np_divide. now rewrite H, Nat.eqb_refl.
Qed.

Lemma length_np_diff_axis1 (t : list (float * float)) :
  List.length (np_diff_axis1 t) = List.length t.
Proof. apply length_map. Qed.

Lemma length_relative_differences (t : list float) :
  List.length (ConvergenceSpec.relative_differences t) = pred (List.length t).
Proof.
  induction t as [|a t IH]; [reflexivity|].
  destruct t as [|b t']; [reflexivity|].
  change (ConvergenceSpec.relative_differences (a :: b :: t'))
    with (((b - a) / b)%float :: ConvergenceSpec.relative_differences (b :: t')).
  cbn [List.length] in *. now rewrite IH.
Qed.

(** The arrays the code builds from the two slices hold the relative
    differences of the specification. *)
Lemma code_differences (t : list float) (m : nat) :
  List.length t = S m ->
  map (fun p => (fst p / snd p)%float)
      (combine (np_diff_axis1 (combine (firstn m t) (tl t))) (tl t))
  = ConvergenceSpec.relative_differences t.
Proof.
  revert m. induction t as [|a t IH]; intros m Hlen; [discriminate|].
  destruct t as [|b t'].
  - injection Hlen as <-. reflexivity.
  - destruct m as [|m']; [discriminate|].
    injection Hlen as Hlen.
    change (ConvergenceSpec.relative_differences (a :: b :: t'))
      with (((b - a) / b)%float :: ConvergenceSpec.relative_differences (b :: t')).
    rewrite <- (IH m' (f_equal S Hlen)).
    reflexivity.
Qed.

(** ** The convergence check, [__continue_iterating_rel_tol_conditions] *)

Import Validators.

(** The check with both parameters set, on an instance that holds a
    series: the guard, then the arrays, then the count. *)
Lemma continue_iterating_unfold (self : instance) (r : float) (k : Z)
    (series : tensor_col) :
  best_response_value self = Some series ->
  __continue_iterating_rel_tol_conditions (Some r) (Some k) self
  = if len series >=? k then
      match cat_dim1 (slice series (Some (- (k + 1))) (Some (- 1)))
                     (slice series (Some (- k)) None) with
      | Ok tmp_array =>
          match np_divide (np_diff_axis1 tmp_array) (slice series (Some (- k)) None) with
          | Ok tmp_rel_diff =>
              (Ok (negb (sum_bools (map (fun d => (d <? r)%float) tmp_rel_diff) =? k)), self)
          | Err e => (Err e, self)
          end
      | Err e => (Err e, self)
      end
    else (Ok true, self).
Proof.
  intros Hbest.
  unfold __continue_iterating_rel_tol_conditions, bind, tensor_attr, lift, ret.
  cbn [andb]. rewrite Hbest.
  destruct (len series >=? k); [|reflexivity].
  destruct (cat_dim1 _ _) as [tmp_array|e]; [|reflexivity].
  destruct (np_divide _ _) as [tmp_rel_diff|e]; [|reflexivity].
  now destruct (sum_bools _ =? k).
Qed.

(** With [k >= 1] and at least [k + 1] entries the check computes the
    stopping rule of the specification. *)
Lemma continue_iterating_enough_history (self : instance) (r : float) (k : Z)
    (series : tensor_col) :
  best_response_value self = Some series ->
  1 <= k -> k + 1 <= len series ->
  __continue_iterating_rel_tol_conditions (Some r) (Some k) self
  = (Ok (ConvergenceSpec.should_continue r k series), self).
Proof.
  intros Hbest Hk Hn.
  rewrite (continue_iterating_unfold self r k series Hbest).
  replace (len series >=? k) with true by (symmetry; apply Z.geb_le; lia).
  rewrite slice_earlier, slice_later by assumption.
  set (t := ConvergenceSpec.last_entries (k + 1) series).
  assert (Ht : List.length t = S (Z.to_nat k)).
  { unfold t. rewrite length_last_entries by lia. lia. }
  assert (Htl : List.length (tl t) = Z.to_nat k).
  { destruct t; simpl in *; lia. }
  unfold cat_dim1.
  rewrite length_firstn, Htl, Ht.
  replace (Nat.min (Z.to_nat k) (S (Z.to_nat k)) =? Z.to_nat k)%nat
    with true by (symmetry; apply Nat.eqb_eq; lia).
  rewrite np_divide_same_length
    by (rewrite length_np_diff_axis1, length_combine, length_firstn; lia).
  rewrite (code_differences t (Z.to_nat k) Ht).
  unfold ConvergenceSpec.should_continue, ConvergenceSpec.all_below. fold t.
  rewrite <- sum_bools_all.
  unfold len. rewrite length_relative_differences, Ht.
  replace (Z.of_nat (Nat.pred (S (Z.to_nat k)))) with k by (simpl; lia).
  reflexivity.
Qed.

(** Before the series has [k] entries the check returns [True]. *)
Lemma continue_iterating_short_history (self : instance) (r : float) (k : Z)
    (series : tensor_col) :
  best_response_value self = Some series ->
  len series < k ->
  __continue_iterating_rel_tol_conditions (Some r) (Some k) self = (Ok true, self).
Proof.
  intros Hbest Hn.
  rewrite (continue_iterating_unfold self r k series Hbest).
  now replace (len series >=? k) with false by (symmetry; rewrite Z.geb_leb; apply Z.leb_gt; lia).
Qed.

(** With exactly [k >= 1] entries the guard lets the check through, the
    two slices have [k - 1] and [k] rows, and [torch.cat] raises. *)
Lemma continue_iterating_exactly_k (self : instance) (r : float) (k : Z)
    (series : tensor_col) :
  best_response_value self = Some series ->
  1 <= k -> len series = k ->
  __continue_iterating_rel_tol_conditions (Some r) (Some k) self
  = (Err (RuntimeError [Lit "Sizes of tensors must match except in dimension 1"]), self).
Proof.
  intros Hbest Hk Hn.
  rewrite (continue_iterating_unfold self r k series Hbest).
  replace (len series >=? k) with true by (symmetry; apply Z.geb_le; lia).
  unfold cat_dim1. rewrite !length_slice. unfold clamp_index.
  replace (- (k + 1) <? 0) with true by (symmetry; apply Z.ltb_lt; lia).
  replace (- k <? 0) with true by (symmetry; apply Z.ltb_lt; lia).
  replace (- 1 <? 0) with true by reflexivity.
  unfold len in *.
  match goal with
  | |- context [(?a =? ?b)%nat] =>
      replace (a =? b)%nat with false by (symmetry; apply Nat.eqb_neq; lia)
  end.
  reflexivity.
Qed.

(** A negative [rel_tol_steps] is not refused: the slices are well formed
    and the count of a list is never negative, so the check returns
    [True]. *)
Lemma continue_iterating_negative_steps (self : instance) (r : float) (k : Z)
    (series : tensor_col) :
  best_response_value self = Some series ->
  k < 0 ->
  __continue_iterating_rel_tol_conditions (Some r) (Some k) self = (Ok true, self).
Proof.
  intros Hbest Hk.
  rewrite (continue_iterating_unfold self r k series Hbest).
  pose proof (len_nonneg series) as Hn.
  replace (len series >=? k) with true by (symmetry; apply Z.geb_le; lia).
  assert (Hlen : List.length (slice series (Some (- (k + 1))) (Some (- 1)))
                 = List.length (slice series (Some (- k)) None)).
  { rewrite !length_slice. unfold clamp_index.
    replace (- (k + 1) <? 0) with false by (symmetry; apply Z.ltb_ge; lia).
    replace (- k <? 0) with false by (symmetry; apply Z.ltb_ge; lia).
    replace (- 1 <? 0) with true by reflexivity.
    unfold len in *. lia. }
  unfold cat_dim1. rewrite Hlen, Nat.eqb_refl.
  rewrite np_divide_same_length
    by (rewrite length_np_diff_axis1, length_combine; lia).
  match goal with
  | |- context [sum_bools ?bs =? k] =>
      pose proof (sum_bools_bounds bs);
      replace (sum_bools bs =? k) with false by (symmetry; apply Z.eqb_neq; lia)
  end.
  reflexivity.
Qed.

(** The check never writes an attribute. *)
Lemma continue_iterating_state (self : instance) (r : option float) (k : option Z) :
  snd (__continue_iterating_rel_tol_conditions r k self) = self.
Proof.
  destruct r as [r|].
  - assert (Hset : forall k', snd (__continue_iterating_rel_tol_conditions (Some r) (Some k') self) = self).
    { intros k'. destruct (best_response_value self) as [series|] eqn:Hbest.
      - rewrite (continue_iterating_unfold self r k' series Hbest).
        destruct (len series >=? k'); [|reflexivity].
        destruct (cat_dim1 _ _); [|reflexivity].
        now destruct (np_divide _ _).
      - unfold __continue_iterating_rel_tol_conditions, bind, tensor_attr.
        cbn [andb]. now rewrite Hbest. }
    destruct k as [k|]; [apply Hset | apply (Hset 1)].
  - now destruct k.
Qed.

(** Whether the check raises does not depend on the tolerance. *)
Lemma continue_iterating_raised (self : instance) (r r' : float) (k : option Z) :
  raised (__continue_iterating_rel_tol_conditions (Some r) k self)
  = raised (__continue_iterating_rel_tol_conditions (Some r') k self).
Proof.
  assert (Hset : forall k',
    raised (__continue_iterating_rel_tol_conditions (Some r) (Some k') self)
    = raised (__continue_iterating_rel_tol_conditions (Some r') (Some k') self)).
  { intros k'. destruct (best_response_value self) as [series|] eqn:Hbest.
    - rewrite !(continue_iterating_unfold self _ k' series Hbest).
      destruct (len series >=? k'); [|reflexivity].
      destruct (cat_dim1 _ _); [|reflexivity].
      now destruct (np_divide _ _).
    - unfold __continue_iterating_rel_tol_conditions, bind, tensor_attr.
      cbn [andb]. now rewrite Hbest. }
  destruct k as [k|]; [apply Hset | apply (Hset 1)].
Qed.

(** C1: with [rel_tol_steps = k >= 1] and a series of at least [k + 1]
    entries, the check returns [False] exactly when all [k] relative
    differences [(later - earlier) / later] over the last [k + 1] entries are
    strictly below [rel_tol], and [True] otherwise; with [rel_tol = 0.05] and
    [k = 2] it returns [False] on [1.0, 1.01, 1.02] and [True] on
    [1.0, 1.5, 1.51]. *)
Theorem rel_tol_conditions_all_steps_below :
  (forall (self : instance) (r : float) (k : Z) (series : tensor_col),
     best_response_value self = Some series ->
     1 <= k -> k + 1 <= len series ->
     __continue_iterating_rel_tol_conditions (Some r) (Some k) self
     = (Ok (negb (ConvergenceSpec.all_below r
                    (ConvergenceSpec.relative_differences
                       (ConvergenceSpec.last_entries (k + 1) series)))),
        self)
     /\ len (ConvergenceSpec.relative_differences
               (ConvergenceSpec.last_entries (k + 1) series)) = k)
  /\ fst (__continue_iterating_rel_tol_conditions (Some 0.05%float) (Some 2)
            (Fixtures.project "SingleTaskGP" (Some [1.0; 1.01; 1.02]%float)))
     = Ok false
  /\ fst (__continue_iterating_rel_tol_conditions (Some 0.05%float) (Some 2)
            (Fixtures.project "SingleTaskGP" (Some [1.0; 1.5; 1.51]%float)))
     = Ok true.
Proof.
  split; [|split; reflexivity].
  intros self r k series Hbest Hk Hn. split.
  - apply continue_iterating_enough_history; assumption.
  - unfold len in *. rewrite length_relative_differences, length_last_entries.
    + lia.
    + unfold len. lia.
Qed.

Lemma rel_tol_conditions_all_steps_below_witness :
  __continue_iterating_rel_tol_conditions (Some 0.05%float) (Some 2)
    (Fixtures.project "Custom" (Some [0.5; 1.0; 1.01; 1.02]%float))
  = (Ok false, Fixtures.project "Custom" (Some [0.5; 1.0; 1.01; 1.02]%float)).
Proof.
  destruct (proj1 rel_tol_conditions_all_steps_below
              (Fixtures.project "Custom" (Some [0.5; 1.0; 1.01; 1.02]%float))
              0.05%float 2 [0.5; 1.0; 1.01; 1.02]%float eq_refl)
    as [H _].
  - lia.
  - unfold len. simpl. lia.
  - rewrite H. reflexivity.
Defined.

(** C2: the guard of the check.  Before the series has [k] entries the check
    returns [True]; with exactly [k >= 1] entries the guard [>=] lets the
    computation start, the two slices differ in length and the check raises
    instead of returning a boolean, as on [rel_tol = 0.05],
    [rel_tol_steps = 2] and the series [1.0, 1.01]. *)
Theorem rel_tol_conditions_guard :
  (forall (self : instance) (r : float) (k : Z) (series : tensor_col),
     best_response_value self = Some series ->
     len series < k ->
     __continue_iterating_rel_tol_conditions (Some r) (Some k) self = (Ok true, self))
  /\ (forall (self : instance) (r : float) (k : Z) (series : tensor_col),
     best_response_value self = Some series ->
     1 <= k -> len series = k ->
     __continue_iterating_rel_tol_conditions (Some r) (Some k) self
     = (Err (RuntimeError [Lit "Sizes of tensors must match except in dimension 1"]), self))
  /\ fst (__continue_iterating_rel_tol_conditions (Some 0.05%float) (Some 2)
            (Fixtures.project "SingleTaskGP" (Some [1.0; 1.01]%float)))
     = Err (RuntimeError [Lit "Sizes of tensors must match except in dimension 1"]).
Proof.
  split; [|split; [|reflexivity]].
  - intros. now apply continue_iterating_short_history with (series := series).
  - intros. now apply continue_iterating_exactly_k with (series := series).
Qed.

Lemma rel_tol_conditions_guard_witness :
  __continue_iterating_rel_tol_conditions (Some 0.1%float) (Some 1)
    (Fixtures.project "SingleTaskGP" (Some [1.0]%float))
  = (Err (RuntimeError [Lit "Sizes of tensors must match except in dimension 1"]),
     Fixtures.project "SingleTaskGP" (Some [1.0]%float)).
Proof.
  apply (proj1 (proj2 rel_tol_conditions_guard)
           (Fixtures.project "SingleTaskGP" (Some [1.0]%float))
           0.1%float 1 [1.0]%float eq_refl).
  - lia.
  - reflexivity.
Defined.

(** C4: for every [rel_tol] and every series, the check with
    [rel_tol_steps = None] returns what it returns with [rel_tol_steps = 1];
    with [rel_tol = 0.1] and the series [1.0, 1.04] it returns [False]. *)
Theorem rel_tol_steps_None_is_one :
  (forall (self : instance) (r : option float),
     __continue_iterating_rel_tol_conditions r None self
     = __continue_iterating_rel_tol_conditions r (Some 1) self)
  /\ fst (__continue_iterating_rel_tol_conditions (Some 0.1%float) None
            (Fixtures.project "SingleTaskGP" (Some [1.0; 1.04]%float)))
     = Ok false.
Proof.
  split; [|reflexivity].
  intros self [r|]; reflexivity.
Qed.

(** C5: with [rel_tol = None] the check returns [True], whatever
    [rel_tol_steps] and whatever the series, the empty one included (and
    also when no series is held yet). *)
Theorem rel_tol_None_continues (self : instance) (k : option Z) :
  __continue_iterating_rel_tol_conditions None k self = (Ok true, self).
Proof.
  unfold __continue_iterating_rel_tol_conditions. cbn [andb].
  destruct k; reflexivity.
Qed.

(** C6, as amended: the check validates the values of neither parameter,
    for [rel_tol] a float and [rel_tol_steps] an int.  Whether it raises
    does not depend on which float [rel_tol] is.  With a negative
    [rel_tol_steps] it returns [True] on an instance that holds a series,
    and raises the [AttributeError] of [None.size()] on one that holds
    none.  For every float tolerance, a negative one included, with
    [rel_tol_steps = k >= 1] and a series of at least [k + 1] entries, it
    returns [False] exactly when all [k] relative differences
    [(later - earlier) / later] over the last [k + 1] entries are strictly
    below that tolerance, and [True] otherwise: a negative tolerance is
    compared like any other. *)
Theorem rel_tol_conditions_no_validation :
  (forall (self : instance) (r r' : float) (k : option Z),
     raised (__continue_iterating_rel_tol_conditions (Some r) k self)
     = raised (__continue_iterating_rel_tol_conditions (Some r') k self))
  /\ (forall (self : instance) (r : float) (k : Z),
     k < 0 ->
     __continue_iterating_rel_tol_conditions (Some r) (Some k) self
     = match best_response_value self with
       | Some _ => (Ok true, self)
       | None =>
           (Err (AttributeError [Lit "'NoneType' object has no attribute 'size'"]),
            self)
       end)
  /\ (forall (self : instance) (r : float) (k : Z) (series : tensor_col),
     best_response_value self = Some series ->
     1 <= k -> k + 1 <= len series ->
     __continue_iterating_rel_tol_conditions (Some r) (Some k) self
     = (Ok (negb (ConvergenceSpec.all_below r
                    (ConvergenceSpec.relative_differences
                       (ConvergenceSpec.last_entries (k + 1) series)))),
        self)).
Proof.
  split; [|split].
  - intros. apply continue_iterating_raised.
  - intros self r k Hk.
    destruct (best_response_value self) as [series|] eqn:Hbest.
    + now apply continue_iterating_negative_steps with (series := series).
    + unfold __continue_iterating_rel_tol_conditions, bind, tensor_attr.
      cbn [andb]. now rewrite Hbest.
  - intros self r k series Hbest Hk Hn.
    now apply continue_iterating_enough_history.
Qed.

Lemma rel_tol_conditions_no_validation_witness :
  __continue_iterating_rel_tol_conditions (Some (-0.5)%float) (Some (-3))
    (Fixtures.project "SingleTaskGP" (Some [2.0; 1.0]%float))
  = (Ok true, Fixtures.project "SingleTaskGP" (Some [2.0; 1.0]%float))
  /\ __continue_iterating_rel_tol_conditions (Some (-0.5)%float) (Some 2)
       (Fixtures.project "SingleTaskGP" (Some [4.0; 2.0; 1.0]%float))
     = (Ok false, Fixtures.project "SingleTaskGP" (Some [4.0; 2.0; 1.0]%float)).
Proof.
  split.
  - apply (proj1 (proj2 rel_tol_conditions_no_validation)
             (Fixtures.project "SingleTaskGP" (Some [2.0; 1.0]%float))
             (-0.5)%float (-3)).
    lia.
  - rewrite (proj2 (proj2 rel_tol_conditions_no_validation)
               (Fixtures.project "SingleTaskGP" (Some [4.0; 2.0; 1.0]%float))
               (-0.5)%float 2 [4.0; 2.0; 1.0]%float eq_refl).
    + reflexivity.
    + lia.
    + unfold len. simpl. lia.
Defined.

(** C6, the claim as stated fails: a negative tolerance, and a negative
    number of steps, are used by the check like any other value; it returns
    a boolean and raises nothing. *)
Lemma negative_rel_tol_is_evaluated :
  __continue_iterating_rel_tol_conditions (Some (-0.5)%float) (Some 1)
    (Fixtures.project "SingleTaskGP" (Some [2.0; 1.0]%float))
  = (Ok false, Fixtures.project "SingleTaskGP" (Some [2.0; 1.0]%float))
  /\ __continue_iterating_rel_tol_conditions (Some (-0.5)%float) (Some 1)
       (Fixtures.project "SingleTaskGP" (Some [1.0; 1.04]%float))
     = (Ok true, Fixtures.project "SingleTaskGP" (Some [1.0; 1.04]%float))
  /\ __continue_iterating_rel_tol_conditions (Some 0.05%float) (Some (-1))
       (Fixtures.project "SingleTaskGP" (Some [1.0; 1.0; 1.0]%float))
     = (Ok true, Fixtures.project "SingleTaskGP" (Some [1.0; 1.0; 1.0]%float)).
Proof. repeat split. Qed.

(** C9: the check leaves every attribute of the instance as it was, the
    best-response series and the training data among them, and a second
    evaluation right after the first returns the same result. *)
Theorem rel_tol_conditions_frame (self : instance) (r : option float) (k : option Z) :
  snd (__continue_iterating_rel_tol_conditions r k self) = self
  /\ best_response_value (snd (__continue_iterating_rel_tol_conditions r k self))
     = best_response_value self
  /\ train_X (snd (__continue_iterating_rel_tol_conditions r k self)) = train_X self
  /\ train_Y (snd (__continue_iterating_rel_tol_conditions r k self)) = train_Y self
  /\ (first <- __continue_iterating_rel_tol_conditions r k ;;
      second <- __continue_iterating_rel_tol_conditions r k ;;
      ret (first, second)) self
     = match fst (__continue_iterating_rel_tol_conditions r k self) with
       | Ok b => (Ok (b, b), self)
       | Err e => (Err e, self)
       end.
Proof.
  pose proof (continue_iterating_state self r k) as Hstate.
  rewrite Hstate. repeat split.
  unfold bind, ret.
  destruct (__continue_iterating_rel_tol_conditions r k self) as [[b|e] self'] eqn:Hrun;
    simpl in Hstate; subst self'; [|reflexivity].
  now rewrite Hrun.
Qed.

(** ** Covariate validation, [__validate_covars] *)

Lemma check_elements_ok (els : list pyval) :
  check_elements els = Ok tt
  <-> (forall el, In el els -> isinstance_float_int el = true).
Proof.
  induction els as [|el els IH]; simpl.
  - split; [intros _ el [] | reflexivity].
  - destruct (isinstance_float_int el) eqn:Hel; simpl.
    + rewrite IH. split.
      * intros H x [<-|Hx]; [assumption | now apply H].
      * intros H x Hx. apply H. now right.
    + split; [discriminate|].
      intros H. specialize (H el (or_introl eq_refl)). congruence.
Qed.

Lemma check_tuples_ok (entries : list pyval) :
  check_tuples entries = Ok tt
  <-> exists tuples, entries = map PyTuple tuples.
Proof.
  induction entries as [|entry entries IH]; simpl.
  - split; [now exists [] | reflexivity].
  - destruct entry as [ | | | | | |els]; simpl;
      try (split; [discriminate | intros [[|t ts] H]; discriminate]).
    rewrite IH. split.
    + intros [ts ->]. now exists (els :: ts).
    + intros [[|t ts] H]; [discriminate|].
      injection H as _ ->. now exists ts.
Qed.

Lemma check_entries_ok (tuples : list (list pyval)) :
  check_entries (map PyTuple tuples) = Ok tt
  <-> (forall els el, In els tuples -> In el els -> isinstance_float_int el = true).
Proof.
  induction tuples as [|els tuples IH]; simpl.
  - split; [intros _ ? ? [] | reflexivity].
  - destruct (check_elements els) as [[]|e] eqn:Hels; simpl.
    + rewrite IH. pose proof (proj1 (check_elements_ok els) Hels) as Hfloat. split.
      * intros H x el [<-|Hx] Hel; [now apply Hfloat | now apply (H x)].
      * intros H x el Hx. apply H. now right.
    + split; [discriminate|].
      intros H.
      assert (Hok : check_elements els = Ok tt)
        by (apply check_elements_ok; intros el; apply H; now left).
      congruence.
Qed.

(** What the validation accepts: exactly the lists of tuples of floats and
    ints. *)
Lemma validate_covars_accepts (covars : pyval) (valid : bool) :
  __validate_covars covars = Ok valid
  <-> valid = true
      /\ exists tuples,
           covars = PyList (map PyTuple tuples)
           /\ (forall els el, In els tuples -> In el els ->
                 isinstance_float_int el = true).
Proof.
  split.
  - destruct covars as [ | | | | |entries| ]; simpl; try discriminate.
    destruct (check_tuples entries) as [[]|e] eqn:Htuples; simpl; [|discriminate].
    apply check_tuples_ok in Htuples as [tuples ->].
    destruct (check_entries (map PyTuple tuples)) as [[]|e] eqn:Hentries;
      simpl; [|discriminate].
    intros H. injection H as <-. split; [reflexivity|].
    exists tuples. split; [reflexivity|]. exact (proj1 (check_entries_ok tuples) Hentries).
  - intros [-> [tuples [-> Hall]]]. simpl.
    replace (check_tuples (map PyTuple tuples)) with (Ok tt)
      by (symmetry; apply check_tuples_ok; now exists tuples).
    simpl. now rewrite (proj2 (check_entries_ok tuples) Hall).
Qed.

(** C8, as amended: every covariate specification the validation accepts is
    a list of tuples whose elements are all floats or ints; nothing relates
    the initial guess to the bounds. *)
Theorem validate_covars_checks_types_only (covars : pyval) (valid : bool) :
  __validate_covars covars = Ok valid ->
  valid = true
  /\ exists tuples,
       covars = PyList (map PyTuple tuples)
       /\ (forall els el, In els tuples -> In el els ->
             isinstance_float_int el = true).
Proof. apply validate_covars_accepts. Qed.

Lemma validate_covars_checks_types_only_witness :
  exists tuples,
    Fixtures.covar_complex = PyList (map PyTuple tuples)
    /\ (forall els el, In els tuples -> In el els ->
          isinstance_float_int el = true).
Proof.
  apply (validate_covars_checks_types_only Fixtures.covar_complex true).
  reflexivity.
Defined.

(** C8, the claim as stated fails: the validation accepts a dimension whose
    initial guess 5.0 lies above its upper bound 1.0, and one whose lower
    bound exceeds its upper bound. *)
Lemma validate_covars_accepts_guess_outside_bounds :
  __validate_covars (PyList [PyTuple [PyFloat 5.0; PyFloat 0.0; PyFloat 1.0]]) = Ok true
  /\ (5.0 <=? 1.0)%float = false
  /\ __validate_covars (PyList [PyTuple [PyFloat 0.5; PyInt 3; PyInt 1]]) = Ok true.
Proof. repeat split. Qed.

(** C10: the validation returns [True] on every list of tuples whose
    elements are all floats or ints, whatever the length of the tuples: on
    the empty list, and on tuples with fewer or more than three entries. *)
Theorem validate_covars_ignores_tuple_length :
  (forall tuples : list (list pyval),
     (forall els el, In els tuples -> In el els -> isinstance_float_int el = true) ->
     __validate_covars (PyList (map PyTuple tuples)) = Ok true)
  /\ __validate_covars (PyList []) = Ok true
  /\ __validate_covars
       (PyList [PyTuple [PyFloat 0.5];
                PyTuple [PyInt 1; PyInt 2; PyInt 3; PyFloat 4.0];
                PyTuple []]) = Ok true.
Proof.
  split; [|split; reflexivity].
  intros tuples Hall. apply validate_covars_accepts.
  split; [reflexivity|]. now exists tuples.
Qed.

Lemma validate_covars_ignores_tuple_length_witness :
  __validate_covars
    (PyList (map PyTuple [[PyFloat 0.5; PyInt 0]; [PyInt 7]])) = Ok true.
Proof.
  apply (proj1 validate_covars_ignores_tuple_length [[PyFloat 0.5; PyInt 0]; [PyInt 7]]).
  intros els el [<-|[<-|[]]] Hel; simpl in Hel;
    repeat (destruct Hel as [<-|Hel]; [reflexivity|]); destruct Hel.
Defined.

(** ** The order of binary64 numbers

    The comparisons of primitive floats are those of their specification
    ([SFcompare]), a lexicographic order on sign, exponent and mantissa in
    which a NaN compares with nothing. *)

Ltac fold_pos_compare :=
  repeat match goal with
  | |- context [PosDef.Pos.compare_cont Eq ?p ?q] =>
      change (PosDef.Pos.compare_cont Eq p q) with (Pos.compare p q)
  end.

Ltac compare_cases :=
  repeat match goal with
  | |- context [Z.compare ?x ?y] => destruct (Z.compare_spec x y)
  | |- context [Pos.compare ?x ?y] => destruct (Pos.compare_spec x y)
  end.

Ltac sf_order :=
  simpl; try congruence; fold_pos_compare; compare_cases; simpl;
  try congruence; intros; try lia.

Lemma SFcompare_Lt_trans (a b c : spec_float) :
  SFcompare a b = Some Lt -> SFcompare b c = Some Lt -> SFcompare a c = Some Lt.
Proof.
  destruct a as [sa|sa| |sa ma ea], b as [sb|sb| |sb mb eb], c as [sc|sc| |sc mc ec];
    try destruct sa; try destruct sb; try destruct sc; sf_order.
Qed.

Lemma SFcompare_Lt_irrefl (a : spec_float) : SFcompare a a <> Some Lt.
Proof.
  destruct a as [sa|sa| |sa ma ea]; try destruct sa; sf_order.
Qed.

Lemma SFcompare_Lt_Eq (a b c : spec_float) :
  SFcompare a b = Some Lt -> SFcompare c b = Some Eq -> SFcompare a c = Some Lt.
Proof.
  destruct a as [sa|sa| |sa ma ea], b as [sb|sb| |sb mb eb], c as [sc|sc| |sc mc ec];
    try destruct sa; try destruct sb; try destruct sc; sf_order.
Qed.

(** Two numbers that both compare equal to themselves are comparable. *)
Lemma SFcompare_total (a b : spec_float) :
  SFcompare a a = Some Eq -> SFcompare b b = Some Eq ->
  SFcompare a b <> Some Lt ->
  SFcompare b a = Some Lt \/ SFcompare b a = Some Eq.
Proof.
  destruct a as [sa|sa| |sa ma ea], b as [sb|sb| |sb mb eb];
    try destruct sa; try destruct sb; simpl; try congruence; try tauto;
    fold_pos_compare; intros _ _; compare_cases; simpl;
    try congruence; try tauto; intros; exfalso; lia.
Qed.

Lemma ltb_true (a b : float) :
  (a <? b)%float = true <-> SFcompare (Prim2SF a) (Prim2SF b) = Some Lt.
Proof.
  rewrite ltb_spec. unfold SFltb.
  destruct (SFcompare _ _) as [[]|]; split; congruence.
Qed.

Lemma eqb_true (a b : float) :
  (a =? b)%float = true <-> SFcompare (Prim2SF a) (Prim2SF b) = Some Eq.
Proof.
  rewrite eqb_spec. unfold SFeqb.
  destruct (SFcompare _ _) as [[]|]; split; congruence.
Qed.

Lemma leb_true (a b : float) :
  (a <=? b)%float = true
  <-> SFcompare (Prim2SF a) (Prim2SF b) = Some Lt
      \/ SFcompare (Prim2SF a) (Prim2SF b) = Some Eq.
Proof.
  rewrite leb_spec. unfold SFleb.
  destruct (SFcompare _ _) as [[]|]; split; try tauto; try congruence;
    intros [H|H]; congruence.
Qed.

Lemma ltb_irrefl (a : float) : (a <? a)%float = false.
Proof.
  destruct (a <? a)%float eqn:H; [|reflexivity].
  apply ltb_true in H. now apply SFcompare_Lt_irrefl in H.
Qed.

(** Nothing exceeds [b] if nothing exceeds the smaller [a]... *)
Lemma ltb_not_exceeded (a b c : float) :
  (a <? b)%float = true -> (a <? c)%float = false -> (b <? c)%float = false.
Proof.
  intros Hab Hac. destruct (b <? c)%float eqn:Hbc; [|reflexivity].
  apply ltb_true in Hab, Hbc.
  pose proof (proj2 (ltb_true a c) (SFcompare_Lt_trans _ _ _ Hab Hbc)). congruence.
Qed.

(** ... and then nothing equals [b] either. *)
Lemma ltb_not_equalled (a b c : float) :
  (a <? b)%float = true -> (a <? c)%float = false -> (c =? b)%float = false.
Proof.
  intros Hab Hac. destruct (c =? b)%float eqn:Hcb; [|reflexivity].
  apply ltb_true in Hab. apply eqb_true in Hcb.
  pose proof (proj2 (ltb_true a c) (SFcompare_Lt_Eq _ _ _ Hab Hcb)). congruence.
Qed.

(** Apart from NaN, a number that does not exceed another is at most it. *)
Lemma not_ltb_leb (a b : float) :
  is_nan a = false -> is_nan b = false ->
  (a <? b)%float = false -> (b <=? a)%float = true.
Proof.
  unfold is_nan. intros Ha Hb Hab.
  apply negb_false_iff in Ha, Hb. apply eqb_true in Ha, Hb.
  apply leb_true. apply SFcompare_total; try assumption.
  intros H. apply ltb_true in H. congruence.
Qed.

(** ** The Best-Response Tracker *)

Import BestResponseTracker.

(** The scan, started on a prefix whose best entry it holds, ends on an
    entry of the whole list that no entry exceeds and no earlier entry
    equals. *)
Lemma scan_holds_first_maximum (rest done : list float) (best_index : nat)
    (best : float) :
  nth_error done best_index = Some best ->
  (forall r, In r done -> (best <? r)%float = false) ->
  (forall j r, (j < best_index)%nat -> nth_error done j = Some r ->
     (r =? best)%float = false) ->
  forall i y,
    scan best_index best (List.length done) rest = (i, y) ->
    nth_error (done ++ rest) i = Some y
    /\ (forall r, In r (done ++ rest) -> (y <? r)%float = false)
    /\ (forall j r, (j < i)%nat -> nth_error (done ++ rest) j = Some r ->
          (r =? y)%float = false).
Proof.
  revert done best_index best.
  induction rest as [|r rest IH]; intros done best_index best Hbest Hmax Hfirst i y Hscan.
  - simpl in Hscan. injection Hscan as <- <-. rewrite app_nil_r. auto.
  - simpl in Hscan.
    assert (Hlen : List.length (done ++ [r]) = S (List.length done))
      by (rewrite length_app; simpl; lia).
    replace (done ++ r :: rest) with ((done ++ [r]) ++ rest)
      by (rewrite <- app_assoc; reflexivity).
    destruct (best <? r)%float eqn:Hlt.
    + (* the new response is strictly larger: it becomes the best *)
      rewrite <- Hlen in Hscan.
      apply (IH (done ++ [r]) (List.length done) r); [| | |exact Hscan].
      * rewrite nth_error_app2, Nat.sub_diag by lia. reflexivity.
      * intros x Hx. apply in_app_or in Hx as [Hx|[<-|[]]].
        -- apply (ltb_not_exceeded best); auto.
        -- apply ltb_irrefl.
      * intros j x Hj Hx. rewrite nth_error_app1 in Hx by assumption.
        apply (ltb_not_equalled best); [assumption|].
        apply Hmax. eapply nth_error_In; eassumption.
    + (* otherwise the held one stays *)
      rewrite <- Hlen in Hscan.
      assert (Hin : (best_index < List.length done)%nat)
        by (apply nth_error_Some; congruence).
      apply (IH (done ++ [r]) best_index best); [| | |exact Hscan].
      * rewrite nth_error_app1 by assumption. assumption.
      * intros x Hx. apply in_app_or in Hx as [Hx|[<-|[]]]; auto.
      * intros j x Hj Hx. rewrite nth_error_app1 in Hx by lia. eauto.
Qed.

(** On a non-empty history the search returns the row and the response at
    one index, the first at which the response is maximal. *)
Lemma find_max_response_value_first_maximum (X : list (list float))
    (Y : list float) :
  Y <> [] -> List.length X = List.length Y ->
  exists i x y,
    find_max_response_value X Y = Some (x, y)
    /\ nth_error Y i = Some y
    /\ nth_error X i = Some x
    /\ (forall r, In r Y -> (y <? r)%float = false)
    /\ (forall j r, (j < i)%nat -> nth_error Y j = Some r -> (r =? y)%float = false).
Proof.
  intros Hne Hlen. destruct Y as [|y0 rest]; [congruence|].
  unfold find_max_response_value.
  destruct (scan 0 y0 1 rest) as [i y] eqn:Hscan.
  destruct (scan_holds_first_maximum rest [y0] 0 y0) with (i := i) (y := y)
    as [Hy [Hmax Hfirst]]; try assumption.
  - reflexivity.
  - intros r [<-|[]]. apply ltb_irrefl.
  - intros j r Hj. lia.
  - simpl app in *.
    assert (Hi : (i < List.length X)%nat)
      by (rewrite Hlen; apply nth_error_Some; congruence).
    exists i, (nth i X []), y. repeat split; auto.
    now apply nth_error_nth'.
Qed.

(** C3: on every non-empty observation set, [update] appends the entry
    [(best_value, best_covariates)] where [best_value] is the response at
    some index [i], no response exceeds it (so every response is at most it
    when none is a NaN), [best_covariates] is the whole covariate row at
    [i], and no response before [i] equals it: of several maximal responses
    the earliest is taken.  On the data of the unit tests the index is 3,
    and 1 for the multivariate data. *)
Theorem update_returns_first_maximum :
  (forall (series : BestResponseSeries) (obs : ObservationSet),
     responses obs <> [] ->
     List.length (covariates obs) = List.length (responses obs) ->
     exists i x y,
       update series obs = inl (series ++ [(y, x)])
       /\ nth_error (responses obs) i = Some y
       /\ nth_error (covariates obs) i = Some x
       /\ (forall r, In r (responses obs) -> (y <? r)%float = false)
       /\ ((forall r, In r (responses obs) -> is_nan r = false) ->
           forall r, In r (responses obs) -> (r <=? y)%float = true)
       /\ (forall j r, (j < i)%nat -> nth_error (responses obs) j = Some r ->
             (r =? y)%float = false))
  /\ find_max_response_value Fixtures.train_X_4elements Fixtures.train_Y_4elements
     = Some ([1.0]%float, 2.0%float)
  /\ find_max_response_value Fixtures.train_X_covar_complex Fixtures.train_Y_covar_complex
     = Some ([0.0; 12.0; -2.5]%float, 5.5%float).
Proof.
  split; [|split; reflexivity].
  intros series obs Hne Hlen.
  destruct (find_max_response_value_first_maximum _ _ Hne Hlen)
    as (i & x & y & Hfind & Hy & Hx & Hmax & Hfirst).
  exists i, x, y. unfold update. rewrite Hfind.
  repeat split; auto.
  intros Hnan r Hr. apply not_ltb_leb; auto.
  apply Hnan. eapply nth_error_In; eassumption.
Qed.

Lemma update_returns_first_maximum_witness :
  exists i x y,
    update [] (mkObservationSet [[0.1]; [0.2]; [0.3]]%float [1.0; 3.0; 3.0]%float)
    = inl [(y, x)]
    /\ nth_error [1.0; 3.0; 3.0]%float i = Some y
    /\ nth_error [[0.1]; [0.2]; [0.3]]%float i = Some x
    /\ (forall j r, (j < i)%nat -> nth_error [1.0; 3.0; 3.0]%float j = Some r ->
          (r =? y)%float = false).
Proof.
  destruct (proj1 update_returns_first_maximum []
              (mkObservationSet [[0.1]; [0.2]; [0.3]]%float [1.0; 3.0; 3.0]%float))
    as (i & x & y & Hupdate & Hy & Hx & _ & _ & Hfirst).
  - discriminate.
  - reflexivity.
  - exists i, x, y. auto.
Defined.

(** ** Model selection: [__init__] and [_set_GP_model] *)

Section ModelSelection.

Variable SingleTaskGP_transformed :
  option tensor_2d -> option tensor_col -> option pyobj -> result pyobj.
Variable SimpleCustomMaternGP :
  option tensor_2d -> option tensor_col -> option float -> option pyobj -> result pyobj.
Variable model_likelihood : pyobj -> result pyobj.
Variable GaussianLikelihood : unit -> result pyobj.
Variable ExactMarginalLogLikelihood : pyobj -> pyobj -> result pyobj.
Variable state_dict : pyobj -> result (option pyobj).
Variable filter_keys : option pyobj -> option pyobj -> result pyobj.
Variable load_state_dict : pyobj -> pyobj -> result unit.
Variable fit_gpytorch_model : pyobj -> result unit.

(** A model type other than the two known ones reaches the last branch:
    [_set_GP_model] raises [Exception] before it builds or stores anything. *)
Lemma set_GP_model_unknown_type (kwargs_nu : option float) (self : instance) :
  ModelDict.model_type (model self) <> "SingleTaskGP"%string ->
  ModelDict.model_type (model self) <> "Custom"%string ->
  Modeling._set_GP_model SingleTaskGP_transformed SimpleCustomMaternGP
    model_likelihood GaussianLikelihood ExactMarginalLogLikelihood state_dict
    filter_keys load_state_dict fit_gpytorch_model kwargs_nu self
  = (Err (Exception (Modeling.unknown_model_type (ModelDict.model_type (model self)))),
     self).
Proof.
  intros Hsingle Hcustom.
  unfold Modeling._set_GP_model, Modeling.select_model, bind, get_attr, raise.
  apply String.eqb_neq in Hsingle, Hcustom.
  now rewrite Hsingle, Hcustom.
Qed.

Variable cuda_is_available : bool.
Variable initialize_from_covars : pyval -> result (tensor_2d * tensor_2d).
Variable initialize_training_data :
  option tensor_2d -> option tensor_col ->
  result (option tensor_2d * option tensor_col * option tensor_2d).
Variable initialize_best_response :
  option tensor_2d -> option tensor_col ->
  result (option tensor_col * option tensor_2d).

(** The constructor stores the model type it is given and looks at it no
    further: with another name it builds the same instance but for that
    name. *)
Lemma init_any_model_type (covars : pyval) (model_type model_type' acq_func : string)
    (kw : CreativeProject.kwargs) (self : instance) :
  CreativeProject.__init__ cuda_is_available initialize_from_covars
    initialize_training_data initialize_best_response
    covars model_type acq_func kw = Ok self ->
  CreativeProject.__init__ cuda_is_available initialize_from_covars
    initialize_training_data initialize_best_response
    covars model_type' acq_func kw = Ok (with_model_type model_type' self)
  /\ ModelDict.model_type (model self) = model_type.
Proof.
  unfold CreativeProject.__init__.
  destruct (initialize_from_covars covars) as [[guess bounds]|e]; [|discriminate].
  simpl.
  destruct (initialize_training_data _ _) as [[[X Y] P]|e]; [|discriminate].
  simpl.
  destruct (initialize_best_response X Y) as [[best best_covars]|e]; [|discriminate].
  simpl. intros H. injection H as <-. split; reflexivity.
Qed.

End ModelSelection.

(** C7, as amended: a model-variant name outside ['SingleTaskGP', 'Custom']
    is not refused at construction.  Whenever [__init__] builds an instance
    for a known name it builds one for any other name too, stored as
    [model["model_type"]]; the name is refused when [_set_GP_model] runs,
    with an [Exception] that tells the two known names, before any model is
    built and with the instance left as it was. *)
Theorem unknown_model_type_refused_by_set_GP_model :
  (forall cuda_is_available initialize_from_covars initialize_training_data
          initialize_best_response
          (covars : pyval) (known unknown acq_func : string)
          (kw : CreativeProject.kwargs) (self : instance),
     CreativeProject.__init__ cuda_is_available initialize_from_covars
       initialize_training_data initialize_best_response
       covars known acq_func kw = Ok self ->
     CreativeProject.__init__ cuda_is_available initialize_from_covars
       initialize_training_data initialize_best_response
       covars unknown acq_func kw = Ok (with_model_type unknown self)
     /\ ModelDict.model_type (model (with_model_type unknown self)) = unknown)
  /\ (forall SingleTaskGP_transformed SimpleCustomMaternGP model_likelihood
          GaussianLikelihood ExactMarginalLogLikelihood state_dict filter_keys
          load_state_dict fit_gpytorch_model
          (kwargs_nu : option float) (self : instance),
     ModelDict.model_type (model self) <> "SingleTaskGP"%string ->
     ModelDict.model_type (model self) <> "Custom"%string ->
     Modeling._set_GP_model SingleTaskGP_transformed SimpleCustomMaternGP
       model_likelihood GaussianLikelihood ExactMarginalLogLikelihood state_dict
       filter_keys load_state_dict fit_gpytorch_model kwargs_nu self
     = (Err (Exception
               (Modeling.unknown_model_type (ModelDict.model_type (model self)))),
        self)).
Proof.
  split.
  - intros cuda from_covars training_data best_response covars known unknown
      acq_func kw self Hinit.
    split; [|reflexivity].
    now apply (init_any_model_type cuda from_covars training_data best_response
                 covars known unknown acq_func kw self).
  - intros. now apply set_GP_model_unknown_type.
Qed.

Lemma unknown_model_type_refused_by_set_GP_model_witness :
  CreativeProject.__init__ false Fixtures.from_covars_1d Fixtures.no_training_data
    Fixtures.no_best_response
    (PyList [PyTuple [PyFloat 0.0; PyFloat (-2.0); PyFloat 2.0]])
    "GradientBoosting" "EI" (CreativeProject.mkKwargs None None None)
  = Ok (Fixtures.project "GradientBoosting" None).
Proof.
  apply (proj1 unknown_model_type_refused_by_set_GP_model
           false Fixtures.from_covars_1d Fixtures.no_training_data
           Fixtures.no_best_response
           (PyList [PyTuple [PyFloat 0.0; PyFloat (-2.0); PyFloat 2.0]])
           "SingleTaskGP"%string "GradientBoosting"%string "EI"%string
           (CreativeProject.mkKwargs None None None)
           (Fixtures.project "SingleTaskGP" None)).
  reflexivity.
Defined.

(** C7, the claim as stated fails: the constructor accepts the name
    "RandomForest" and returns an instance; the name is refused later, by
    [_set_GP_model], and with an [Exception]. *)
Lemma unknown_model_type_accepted_at_construction :
  CreativeProject.__init__ false Fixtures.from_covars_1d Fixtures.no_training_data
    Fixtures.no_best_response
    (PyList [PyTuple [PyFloat 0.0; PyFloat (-2.0); PyFloat 2.0]])
    "RandomForest" "EI" (CreativeProject.mkKwargs None None None)
  = Ok (Fixtures.project "RandomForest" None)
  /\ Modeling._set_GP_model
       (fun _ _ _ => Fixtures.unavailable) (fun _ _ _ _ => Fixtures.unavailable)
       (fun _ => Fixtures.unavailable) (fun _ => Fixtures.unavailable)
       (fun _ _ => Fixtures.unavailable) (fun _ => Fixtures.unavailable)
       (fun _ _ => Fixtures.unavailable) (fun _ _ => Fixtures.unavailable)
       (fun _ => Fixtures.unavailable)
       None (Fixtures.project "RandomForest" None)
     = (Err (Exception
          [Lit "creative_project._modeling._set_GP_model: unknown 'model_type' (RandomForest) provided. Must be in following list ['Custom', 'SingleTaskGP']"]),
        Fixtures.project "RandomForest" None).
Proof. split; reflexivity. Qed.

(** * Further properties of the code *)

(** ** [__validate_covars]: which error is raised *)

Lemma check_tuples_not_tuple (entries : list pyval) :
  (exists entry, In entry entries /\ isinstance_tuple entry = false) ->
  check_tuples entries
  = Err (TypeError
      [Lit "kre8_core.creative_project._validators.Validator.__validate_covars: entry in covars list is not tuple"]).
Proof.
  induction entries as [|e es IH]; intros [entry [Hin Hnot]]; [destruct Hin|].
  simpl. destruct (isinstance_tuple e) eqn:He; [|reflexivity].
  simpl. apply IH. exists entry. split; [|assumption].
  destruct Hin as [<-|Hin]; [congruence | assumption].
Qed.

Lemma check_elements_app (before after : list pyval) :
  check_elements (before ++ after)
  = rbind (check_elements before) (fun _ => check_elements after).
Proof.
  induction before as [|el before IH]; [reflexivity|].
  simpl. now destruct (isinstance_float_int el).
Qed.

(** The second loop reads the elements of all tuples in one pass. *)
Lemma check_entries_concat (tuples : list (list pyval)) :
  check_entries (map PyTuple tuples) = check_elements (List.concat tuples).
Proof.
  induction tuples as [|els tuples IH]; [reflexivity|].
  simpl. rewrite check_elements_app, IH.
  destruct (check_elements els) as [[]|e]; reflexivity.
Qed.

(** X1: when some entry of the list is not a tuple, [__validate_covars]
    raises the [TypeError] "entry in covars list is not tuple", whatever
    the tuples before it hold: the test of the entries is completed before
    any element is looked at. *)
Theorem validate_covars_not_tuple_first (entries : list pyval) :
  (exists entry, In entry entries /\ isinstance_tuple entry = false) ->
  __validate_covars (PyList entries)
  = Err (TypeError
      [Lit "kre8_core.creative_project._validators.Validator.__validate_covars: entry in covars list is not tuple"]).
Proof.
  intros H. unfold __validate_covars.
  now rewrite (check_tuples_not_tuple entries H).
Qed.

Lemma validate_covars_not_tuple_first_witness :
  __validate_covars
    (PyList [PyTuple [PyStr "a"; PyNone]; PyList [PyFloat 0.5; PyInt 0; PyInt 1]])
  = Err (TypeError
      [Lit "kre8_core.creative_project._validators.Validator.__validate_covars: entry in covars list is not tuple"]).
Proof.
  apply validate_covars_not_tuple_first.
  exists (PyList [PyFloat 0.5; PyInt 0; PyInt 1]).
  split; [right; left; reflexivity | reflexivity].
Defined.

(** X2: on a list of tuples, [__validate_covars] raises the [TypeError] of
    the first element, in reading order over all tuples, that is neither a
    float nor an int, and its message holds [str] of that element. *)
Theorem validate_covars_first_bad_element (tuples : list (list pyval))
    (before after : list pyval) (bad : pyval) :
  List.concat tuples = before ++ bad :: after ->
  (forall el, In el before -> isinstance_float_int el = true) ->
  isinstance_float_int bad = false ->
  __validate_covars (PyList (map PyTuple tuples))
  = Err (TypeError
      [Lit "kre8_core.creative_project._validators.Validator.__validate_covars: tuple element ";
       StrOf bad;
       Lit " in covars list is neither of type float or int"]).
Proof.
  intros Hsplit Hbefore Hbad. unfold __validate_covars.
  replace (check_tuples (map PyTuple tuples)) with (Ok tt)
    by (symmetry; apply check_tuples_ok; now exists tuples).
  simpl rbind.
  rewrite check_entries_concat, Hsplit, check_elements_app.
  rewrite (proj2 (check_elements_ok before) Hbefore).
  simpl. now rewrite Hbad.
Qed.

Lemma validate_covars_first_bad_element_witness :
  __validate_covars
    (PyList (map PyTuple [[PyFloat 0.5; PyInt 0]; [PyStr "1"; PyNone]]))
  = Err (TypeError
      [Lit "kre8_core.creative_project._validators.Validator.__validate_covars: tuple element ";
       StrOf (PyStr "1");
       Lit " in covars list is neither of type float or int"]).
Proof.
  apply (validate_covars_first_bad_element
           [[PyFloat 0.5; PyInt 0]; [PyStr "1"; PyNone]]
           [PyFloat 0.5; PyInt 0] [PyNone] (PyStr "1")).
  - reflexivity.
  - intros el [<-|[<-|[]]]; reflexivity.
  - reflexivity.
Defined.

(** ** The validators of shapes *)

Lemma len_gt_1 {A} (s : list A) :
  (len s >? 1) = match s with _ :: _ :: _ => true | _ => false end.
Proof.
  destruct s as [|a [|b s]]; try reflexivity.
  unfold len. rewrite Z.gtb_ltb. apply Z.ltb_lt. simpl List.length. lia.
Qed.

(** The number of columns [__validate_num_covars] compares with. *)
Lemma shape_2d_columns (t : tensor_2d) :
  shape_at (shape_2d t) 1
  = Returns (match t with [] => 0 | row :: _ => len row end).
Proof. reflexivity. Qed.

(** [__validate_num_covars] in closed form: it never raises. *)
Lemma validate_num_covars_value (a : option array) (self : instance) :
  __validate_num_covars a self
  = Returns match a with
            | Some a =>
                match shape a with
                | _ :: num_covars :: _ =>
                    num_covars =? match initial_guess self with
                                  | [] => 0
                                  | row :: _ => len row
                                  end
                | _ => false
                end
            | None => false
            end.
Proof.
  unfold __validate_num_covars. destruct a as [a|]; [|reflexivity].
  rewrite len_gt_1, shape_2d_columns.
  destruct (shape a) as [|n [|d rest]]; try reflexivity.
  simpl. now destruct (d =? _).
Qed.

Lemma validate_num_response_value (a : option array) :
  __validate_num_response a
  = Returns match a with
            | Some a =>
                match shape a with
                | _ :: num_responses :: _ => num_responses =? 1
                | _ => false
                end
            | None => false
            end.
Proof.
  unfold __validate_num_response. destruct a as [a|]; [|reflexivity].
  rewrite len_gt_1.
  destruct (shape a) as [|n [|d rest]]; try reflexivity.
  simpl. now destruct (d =? 1).
Qed.

(** [__validate_training_data] in closed form. *)
Lemma validate_training_data_value (X Y : option array) (self : instance) :
  __validate_training_data X Y self
  = match X, Y with
    | Some x, Some y =>
        if is_DoubleTensor x && is_DoubleTensor y then
          match shape x, shape y with
          | [], _ => RaisesIndexError
          | _ :: _, [] => RaisesIndexError
          | n :: rest_x, m :: _ =>
              Returns ((n =? m)
                       && match rest_x with
                          | d :: _ => d =? match initial_guess self with
                                           | [] => 0
                                           | row :: _ => len row
                                           end
                          | [] => false
                          end)
          end
        else Returns false
    | _, _ => Returns false
    end.
Proof.
  unfold __validate_training_data.
  destruct X as [x|], Y as [y|]; try reflexivity.
  destruct (is_DoubleTensor x && is_DoubleTensor y); [|reflexivity].
  rewrite validate_num_covars_value.
  destruct (shape x) as [|n rest_x]; [reflexivity|].
  destruct (shape y) as [|m rest_y]; [reflexivity|].
  unfold shape_at. simpl.
  destruct (n =? m); [|reflexivity].
  destruct rest_x as [|d rest_x]; [reflexivity|].
  simpl. now destruct (d =? _).
Qed.

(** What [__validate_training_data] accepts. *)
Lemma validate_training_data_true (X Y : option array) (self : instance) :
  __validate_training_data X Y self = Returns true
  <-> exists x y n d rest_x rest_y,
        X = Some x /\ Y = Some y
        /\ is_DoubleTensor x = true /\ is_DoubleTensor y = true
        /\ shape x = n :: d :: rest_x /\ shape y = n :: rest_y
        /\ shape_at (shape_2d (initial_guess self)) 1 = Returns d.
Proof.
  rewrite validate_training_data_value. split.
  - destruct X as [x|], Y as [y|]; try discriminate.
    destruct (is_DoubleTensor x) eqn:Hx, (is_DoubleTensor y) eqn:Hy;
      try discriminate.
    simpl. destruct (shape x) as [|n [|d rest_x]] eqn:Hsx;
      destruct (shape y) as [|m rest_y] eqn:Hsy; try discriminate.
    + intros H. injection H as H. rewrite andb_false_r in H. discriminate.
    + intros H. injection H as H. apply andb_true_iff in H as [Hn Hd].
      apply Z.eqb_eq in Hn, Hd. subst m.
      exists x, y, n, d, rest_x, rest_y. rewrite shape_2d_columns, <- Hd.
      repeat split; assumption.
  - intros (x & y & n & d & rest_x & rest_y & -> & -> & Hx & Hy & Hsx & Hsy & Hd).
    rewrite Hx, Hy, Hsx, Hsy. simpl.
    rewrite shape_2d_columns in Hd. injection Hd as <-.
    now rewrite !Z.eqb_refl.
Qed.

(** X3: [__validate_training_data] returns [True] exactly when both
    arguments are [torch.DoubleTensor]s (so neither is [None]), their first
    dimensions agree, and [train_X] has at least two dimensions, the second
    being the number of columns of [self.initial_guess]; the covariates of
    accepted training data pass [__validate_num_covars]. *)
Theorem validate_training_data_accepts (X Y : option array) (self : instance) :
  (__validate_training_data X Y self = Returns true
   <-> exists x y n d rest_x rest_y,
         X = Some x /\ Y = Some y
         /\ is_DoubleTensor x = true /\ is_DoubleTensor y = true
         /\ shape x = n :: d :: rest_x /\ shape y = n :: rest_y
         /\ shape_at (shape_2d (initial_guess self)) 1 = Returns d)
  /\ (__validate_training_data X Y self = Returns true ->
      __validate_num_covars X self = Returns true).
Proof.
  split; [apply validate_training_data_true|].
  intros Haccept.
  apply validate_training_data_true in Haccept
    as (x & y & n & d & rest_x & rest_y & -> & _ & _ & _ & Hsx & _ & Hd).
  rewrite validate_num_covars_value, Hsx.
  rewrite shape_2d_columns in Hd. injection Hd as <-.
  now rewrite Z.eqb_refl.
Qed.

Lemma validate_training_data_accepts_witness :
  __validate_num_covars (Some (mkArray true [4; 1]))
    (Fixtures.project "SingleTaskGP" None) = Returns true.
Proof.
  apply (proj2 (validate_training_data_accepts (Some (mkArray true [4; 1]))
                  (Some (mkArray true [4; 1])) (Fixtures.project "SingleTaskGP" None))).
  reflexivity.
Defined.

(** X4: [__validate_training_data] looks at the first dimension of
    [train_Y] only: once a pair is accepted, it stays accepted when the
    responses are replaced by a double tensor of the same number of rows
    and any further dimensions (no column, or several columns). *)
Theorem validate_training_data_any_response_columns (X : option array)
    (y : array) (self : instance) (n : Z) (rest rest' : list Z) :
  __validate_training_data X (Some y) self = Returns true ->
  shape y = n :: rest ->
  __validate_training_data X (Some (mkArray true (n :: rest'))) self = Returns true.
Proof.
  intros Haccept Hshape.
  apply validate_training_data_true in Haccept
    as (x & y0 & n0 & d & rest_x & rest_y & -> & Hy & Hx & Hdy & Hsx & Hsy & Hd).
  injection Hy as <-. rewrite Hshape in Hsy. injection Hsy as -> _.
  apply validate_training_data_true.
  exists x, (mkArray true (n0 :: rest')), n0, d, rest_x, rest'.
  repeat split; assumption.
Qed.

Lemma validate_training_data_any_response_columns_witness :
  __validate_training_data (Some (mkArray true [4; 1]))
    (Some (mkArray true [4; 5])) (Fixtures.project "SingleTaskGP" None)
  = Returns true
  /\ __validate_num_response (Some (mkArray true [4; 5])) = Returns false.
Proof.
  split; [|reflexivity].
  apply (validate_training_data_any_response_columns
           (Some (mkArray true [4; 1])) (mkArray true [4; 1])
           (Fixtures.project "SingleTaskGP" None) 4 [1] [5]);
    reflexivity.
Defined.

(** X5: [__validate_training_data] raises, an [IndexError], exactly when
    both arguments are [torch.DoubleTensor]s and one of them has no
    dimension (a scalar tensor); in every other case it returns a boolean. *)
Theorem validate_training_data_raises (X Y : option array) (self : instance) :
  __validate_training_data X Y self = RaisesIndexError
  <-> exists x y,
        X = Some x /\ Y = Some y
        /\ is_DoubleTensor x = true /\ is_DoubleTensor y = true
        /\ (shape x = [] \/ shape y = []).
Proof.
  rewrite validate_training_data_value. split.
  - destruct X as [x|], Y as [y|]; try discriminate.
    destruct (is_DoubleTensor x) eqn:Hx, (is_DoubleTensor y) eqn:Hy;
      try discriminate.
    simpl. intros H. exists x, y.
    destruct (shape x) as [|n rest_x]; [now auto 10|].
    destruct (shape y) as [|m rest_y]; [now auto 10|discriminate].
  - intros (x & y & -> & -> & Hx & Hy & Hshape).
    rewrite Hx, Hy. simpl.
    destruct Hshape as [-> | ->]; [reflexivity|].
    now destruct (shape x).
Qed.

(** X6: for a project with a single covariate (the rows of
    [self.initial_guess] have one entry), [__validate_num_covars] and
    [__validate_num_response] give the same verdict on every array, and
    neither raises. *)
Theorem validate_num_covars_single_covariate (a : option array) (self : instance)
    (g : float) (rest : tensor_2d) :
  initial_guess self = [g] :: rest ->
  __validate_num_covars a self = __validate_num_response a
  /\ __validate_num_response a <> RaisesIndexError.
Proof.
  intros Hguess.
  rewrite validate_num_covars_value, validate_num_response_value, Hguess.
  split; [reflexivity | discriminate].
Qed.

Lemma validate_num_covars_single_covariate_witness :
  __validate_num_covars (Some (mkArray false [7; 1])) (Fixtures.project "Custom" None)
  = __validate_num_response (Some (mkArray false [7; 1])).
Proof.
  apply (validate_num_covars_single_covariate (Some (mkArray false [7; 1]))
           (Fixtures.project "Custom" None) 0.0%float []).
  reflexivity.
Defined.

(** ** The convergence check: edges of its parameters *)

(** With [rel_tol_steps = 0] the first slice is empty and the second is the
    whole series: the check stops on an empty series and raises on any
    other. *)
Lemma continue_iterating_zero_steps (self : instance) (r : float)
    (series : tensor_col) :
  best_response_value self = Some series ->
  __continue_iterating_rel_tol_conditions (Some r) (Some 0) self
  = match series with
    | [] => (Ok false, self)
    | _ :: _ =>
        (Err (RuntimeError [Lit "Sizes of tensors must match except in dimension 1"]),
         self)
    end.
Proof.
  intros Hbest.
  rewrite (continue_iterating_unfold self r 0 series Hbest).
  pose proof (len_nonneg series) as Hn.
  replace (len series >=? 0) with true by (symmetry; apply Z.geb_le; lia).
  assert (Hearlier : slice series (Some (- (0 + 1))) (Some (- 1)) = []).
  { change (- (0 + 1)) with (- 1). unfold slice, clamp_index.
    change (- 1 <? 0) with true. cbv iota.
    now rewrite Z.sub_diag. }
  assert (Hlater : slice series (Some (- 0)) None = series).
  { change (- 0) with 0. unfold slice, clamp_index.
    change (0 <? 0) with false. cbv iota.
    rewrite Z.min_l, Z.sub_0_r by lia. change (Z.to_nat 0) with 0%nat.
    rewrite skipn_O. apply firstn_all2. unfold len. lia. }
  rewrite Hearlier, Hlater.
  destruct series; reflexivity.
Qed.

(** The outcome of the check with both parameters set, by the number of
    steps and the length of the series. *)
Lemma continue_iterating_outcome (self : instance) (r : float) (k : Z)
    (series : tensor_col) :
  best_response_value self = Some series ->
  let run := __continue_iterating_rel_tol_conditions (Some r) (Some k) self in
  (run = (Ok true, self) /\ (k < 0 \/ len series < k))
  \/ (run = (Err (RuntimeError [Lit "Sizes of tensors must match except in dimension 1"]),
             self)
      /\ ((1 <= k /\ len series = k) \/ (k = 0 /\ series <> [])))
  \/ (run = (Ok false, self) /\ k = 0 /\ series = [])
  \/ (run = (Ok (ConvergenceSpec.should_continue r k series), self)
      /\ 1 <= k /\ k + 1 <= len series).
Proof.
  intros Hbest run. subst run.
  destruct (Z.lt_trichotomy k 0) as [Hneg|[Hzero|Hpos]].
  - left. split; [|lia]. now apply continue_iterating_negative_steps with (series := series).
  - subst k. rewrite (continue_iterating_zero_steps self r series Hbest).
    destruct series as [|v series].
    + right. right. left. auto.
    + right. left. split; [reflexivity|]. right. split; [reflexivity | discriminate].
  - destruct (Z.lt_trichotomy (len series) k) as [Hshort|[Hexact|Hlong]].
    + left. split; [|lia]. now apply continue_iterating_short_history with (series := series).
    + right. left. split; [|lia].
      apply continue_iterating_exactly_k with (series := series); auto; lia.
    + right. right. right. split; [|lia].
      apply continue_iterating_enough_history; auto; lia.
Qed.

Lemma continue_iterating_no_series (self : instance) (r : float) (k : Z) :
  best_response_value self = None ->
  __continue_iterating_rel_tol_conditions (Some r) (Some k) self
  = (Err (AttributeError [Lit "'NoneType' object has no attribute 'size'"]), self).
Proof.
  intros Hbest.
  unfold __continue_iterating_rel_tol_conditions, bind, tensor_attr.
  cbn [andb]. now rewrite Hbest.
Qed.

(** X7: with a tolerance set, the check raises exactly when the instance
    holds no series yet, or the series has exactly [rel_tol_steps >= 1]
    entries, or [rel_tol_steps] is 0 and the series is not empty;
    [rel_tol_steps = None] counts as 1.  In every other case it returns a
    boolean. *)
Theorem rel_tol_conditions_raises (self : instance) (r : float) (k : option Z) :
  raised (__continue_iterating_rel_tol_conditions (Some r) k self) = true
  <-> best_response_value self = None
      \/ exists series,
           best_response_value self = Some series
           /\ let steps := match k with Some steps => steps | None => 1 end in
              (1 <= steps /\ len series = steps) \/ (steps = 0 /\ series <> []).
Proof.
  replace (__continue_iterating_rel_tol_conditions (Some r) k self)
    with (__continue_iterating_rel_tol_conditions (Some r)
            (Some match k with Some steps => steps | None => 1 end) self)
    by (now destruct k).
  cbv zeta. generalize (match k with Some steps => steps | None => 1 end).
  intros steps.
  destruct (best_response_value self) as [series|] eqn:Hbest.
  - pose proof (len_nonneg series) as Hlen.
    assert (Hiff : forall P : Prop,
              (P <-> (1 <= steps /\ len series = steps) \/ (steps = 0 /\ series <> [])) ->
              (P <-> Some series = None
                     \/ exists s, Some series = Some s
                          /\ ((1 <= steps /\ len s = steps) \/ (steps = 0 /\ s <> [])))).
    { intros P HP. rewrite HP. split.
      - intros H. right. exists series. now split.
      - intros [H|[s [Hs H]]]; [discriminate|]. now injection Hs as <-. }
    refine (Hiff _ _).
    destruct (continue_iterating_outcome self r steps series Hbest)
      as [[-> H]|[[-> H]|[[-> [-> ->]]|[-> H]]]]; unfold raised; cbn [fst].
    + split; [discriminate | lia].
    + split; [now intros _ | reflexivity].
    + split; [discriminate|].
      intros [[H _]|[_ H]]; [lia | congruence].
    + split; [discriminate | lia].
  - rewrite (continue_iterating_no_series self r steps Hbest). unfold raised; cbn [fst].
    split; auto.
Qed.

(** X8: with [rel_tol_steps = 0] the check compares no step: on an
    instance whose series is empty it returns [False] (stop) for every
    tolerance, and on any other series it raises the [RuntimeError] of
    [torch.cat]. *)
Theorem rel_tol_conditions_zero_steps (self : instance) (r : float)
    (series : tensor_col) :
  best_response_value self = Some series ->
  (series = [] ->
   __continue_iterating_rel_tol_conditions (Some r) (Some 0) self = (Ok false, self))
  /\ (series <> [] ->
      __continue_iterating_rel_tol_conditions (Some r) (Some 0) self
      = (Err (RuntimeError [Lit "Sizes of tensors must match except in dimension 1"]),
         self)).
Proof.
  intros Hbest. rewrite (continue_iterating_zero_steps self r series Hbest).
  split; intros H.
  - now subst series.
  - destruct series; [congruence | reflexivity].
Qed.

Lemma rel_tol_conditions_zero_steps_witness :
  __continue_iterating_rel_tol_conditions (Some 0.05%float) (Some 0)
    (Fixtures.project "SingleTaskGP" (Some []))
  = (Ok false, Fixtures.project "SingleTaskGP" (Some [])).
Proof.
  apply (proj1 (rel_tol_conditions_zero_steps
                  (Fixtures.project "SingleTaskGP" (Some [])) 0.05%float [] eq_refl)).
  reflexivity.
Defined.

(** ** The convergence check and the tolerance *)

Lemma SFcompare_Eq_sym (a b : spec_float) :
  SFcompare a b = Some Eq -> SFcompare b a = Some Eq.
Proof.
  destruct a as [sa|sa| |sa ma ea], b as [sb|sb| |sb mb eb];
    try destruct sa; try destruct sb; sf_order;
    subst; rewrite ?Z.compare_refl, ?Pos.compare_refl in *; simpl; congruence.
Qed.

Lemma SFcompare_not_nan (a : spec_float) :
  SFcompare a a <> Some Eq -> a = S754_nan.
Proof.
  destruct a as [sa|sa| |sa ma ea]; try destruct sa; simpl; try congruence;
    fold_pos_compare; rewrite Z.compare_refl, Pos.compare_refl; simpl; congruence.
Qed.

Lemma ltb_leb_trans (a b c : float) :
  (a <? b)%float = true -> (b <=? c)%float = true -> (a <? c)%float = true.
Proof.
  intros Hab Hbc. apply ltb_true in Hab. apply leb_true in Hbc.
  apply ltb_true. destruct Hbc as [Hlt|Heq].
  - eapply SFcompare_Lt_trans; eassumption.
  - eapply SFcompare_Lt_Eq; [eassumption|]. now apply SFcompare_Eq_sym.
Qed.

(** Nothing is below a NaN. *)
Lemma ltb_nan (a r : float) : is_nan r = true -> (a <? r)%float = false.
Proof.
  unfold is_nan. intros Hnan. apply negb_true_iff in Hnan.
  assert (Hr : Prim2SF r = S754_nan).
  { apply SFcompare_not_nan. intros Heq. apply eqb_true in Heq. congruence. }
  rewrite ltb_spec, Hr. unfold SFltb. now destruct (Prim2SF a) as [[]|[]| |[] ? ?].
Qed.

Lemma all_below_monotone (r r' : float) (diffs : list float) :
  (r <=? r')%float = true ->
  ConvergenceSpec.all_below r diffs = true ->
  ConvergenceSpec.all_below r' diffs = true.
Proof.
  intros Hle. unfold ConvergenceSpec.all_below. rewrite !forallb_forall.
  intros H d Hd. eapply ltb_leb_trans; eauto.
Qed.

Lemma last_entries_app (n : Z) (old recent : list float) :
  0 <= n <= len recent ->
  ConvergenceSpec.last_entries n (old ++ recent)
  = ConvergenceSpec.last_entries n recent.
Proof.
  intros Hn. unfold ConvergenceSpec.last_entries, len in *.
  rewrite length_app, skipn_app.
  rewrite skipn_all2 by lia. simpl. f_equal. lia.
Qed.

(** X9: a larger tolerance stops no later.  When the check returns [False]
    (stop) with tolerance [r], it returns [False] on the same instance and
    the same [rel_tol_steps] with every tolerance [r'] such that
    [r <= r']. *)
Theorem rel_tol_conditions_monotone (self : instance) (r r' : float)
    (k : option Z) :
  (r <=? r')%float = true ->
  __continue_iterating_rel_tol_conditions (Some r) k self = (Ok false, self) ->
  __continue_iterating_rel_tol_conditions (Some r') k self = (Ok false, self).
Proof.
  intros Hle.
  replace (__continue_iterating_rel_tol_conditions (Some r) k self)
    with (__continue_iterating_rel_tol_conditions (Some r)
            (Some match k with Some steps => steps | None => 1 end) self)
    by (now destruct k).
  replace (__continue_iterating_rel_tol_conditions (Some r') k self)
    with (__continue_iterating_rel_tol_conditions (Some r')
            (Some match k with Some steps => steps | None => 1 end) self)
    by (now destruct k).
  generalize (match k with Some steps => steps | None => 1 end). intros steps.
  destruct (best_response_value self) as [series|] eqn:Hbest.
  - destruct (continue_iterating_outcome self r steps series Hbest)
      as [[-> _]|[[-> _]|[[_ [-> ->]]|[-> [Hk Hn]]]]]; try discriminate.
    + intros _. now rewrite (continue_iterating_zero_steps self r' [] Hbest).
    + intros Hstop. injection Hstop as Hstop.
      rewrite (continue_iterating_enough_history self r' steps series Hbest Hk Hn).
      unfold ConvergenceSpec.should_continue in *.
      apply negb_false_iff in Hstop.
      now rewrite (all_below_monotone r r' _ Hle Hstop).
  - rewrite (continue_iterating_no_series self r steps Hbest). discriminate.
Qed.

Lemma rel_tol_conditions_monotone_witness :
  __continue_iterating_rel_tol_conditions (Some 0.5%float) (Some 2)
    (Fixtures.project "SingleTaskGP" (Some [1.0; 1.01; 1.02]%float))
  = (Ok false, Fixtures.project "SingleTaskGP" (Some [1.0; 1.01; 1.02]%float)).
Proof.
  apply (rel_tol_conditions_monotone
           (Fixtures.project "SingleTaskGP" (Some [1.0; 1.01; 1.02]%float))
           0.05%float 0.5%float (Some 2));
    reflexivity.
Defined.

(** X10: only the recent history counts.  With [rel_tol_steps = k >= 1],
    the check returns the same on a series of at least [k + 1] entries and
    on that series with any older entries in front of it. *)
Theorem rel_tol_conditions_recent_history (self self' : instance) (r : float)
    (k : Z) (old recent : tensor_col) :
  best_response_value self = Some (old ++ recent) ->
  best_response_value self' = Some recent ->
  1 <= k -> k + 1 <= len recent ->
  fst (__continue_iterating_rel_tol_conditions (Some r) (Some k) self)
  = fst (__continue_iterating_rel_tol_conditions (Some r) (Some k) self').
Proof.
  intros Hself Hself' Hk Hn.
  rewrite (continue_iterating_enough_history self r k _ Hself Hk)
    by (unfold len in *; rewrite length_app; lia).
  rewrite (continue_iterating_enough_history self' r k _ Hself' Hk Hn).
  unfold ConvergenceSpec.should_continue.
  now rewrite last_entries_app by (pose proof (len_nonneg recent); lia).
Qed.

Lemma rel_tol_conditions_recent_history_witness :
  fst (__continue_iterating_rel_tol_conditions (Some 0.05%float) (Some 2)
         (Fixtures.project "SingleTaskGP" (Some [0.1; 0.5; 1.0; 1.01; 1.02]%float)))
  = fst (__continue_iterating_rel_tol_conditions (Some 0.05%float) (Some 2)
           (Fixtures.project "SingleTaskGP" (Some [1.0; 1.01; 1.02]%float))).
Proof.
  apply (rel_tol_conditions_recent_history
           (Fixtures.project "SingleTaskGP" (Some [0.1; 0.5; 1.0; 1.01; 1.02]%float))
           (Fixtures.project "SingleTaskGP" (Some [1.0; 1.01; 1.02]%float))
           0.05%float 2 [0.1; 0.5]%float [1.0; 1.01; 1.02]%float eq_refl eq_refl).
  - lia.
  - unfold len. simpl. lia.
Defined.

(** X11: a NaN tolerance never stops the loop.  With [rel_tol] a NaN,
    [rel_tol_steps = k >= 1] and at least [k + 1] entries, the check
    returns [True] whatever the series holds. *)
Theorem rel_tol_conditions_nan_tolerance (self : instance) (r : float) (k : Z)
    (series : tensor_col) :
  is_nan r = true ->
  best_response_value self = Some series ->
  1 <= k -> k + 1 <= len series ->
  __continue_iterating_rel_tol_conditions (Some r) (Some k) self = (Ok true, self).
Proof.
  intros Hnan Hbest Hk Hn.
  rewrite (continue_iterating_enough_history self r k series Hbest Hk Hn).
  unfold ConvergenceSpec.should_continue, ConvergenceSpec.all_below.
  assert (Hlen : List.length (ConvergenceSpec.relative_differences
                                (ConvergenceSpec.last_entries (k + 1) series))
                 = Z.to_nat k).
  { rewrite length_relative_differences, length_last_entries; lia. }
  destruct (ConvergenceSpec.relative_differences _) as [|d diffs].
  - simpl in Hlen. lia.
  - simpl. now rewrite (ltb_nan d r Hnan).
Qed.

Lemma rel_tol_conditions_nan_tolerance_witness :
  __continue_iterating_rel_tol_conditions (Some nan) (Some 1)
    (Fixtures.project "SingleTaskGP" (Some [1.0; 1.0]%float))
  = (Ok true, Fixtures.project "SingleTaskGP" (Some [1.0; 1.0]%float)).
Proof.
  apply (rel_tol_conditions_nan_tolerance
           (Fixtures.project "SingleTaskGP" (Some [1.0; 1.0]%float))
           nan 1 [1.0; 1.0]%float);
    [reflexivity | reflexivity | lia | unfold len; simpl; lia].
Defined.

(** ** [_set_GP_model]: what it writes, and when *)

Set Warnings "-notation-for-abbreviation".

Section SetGPModel.

Variable SingleTaskGP_transformed :
  option tensor_2d -> option tensor_col -> option pyobj -> result pyobj.
Variable SimpleCustomMaternGP :
  option tensor_2d -> option tensor_col -> option float -> option pyobj -> result pyobj.
Variable model_likelihood : pyobj -> result pyobj.
Variable GaussianLikelihood : unit -> result pyobj.
Variable ExactMarginalLogLikelihood : pyobj -> pyobj -> result pyobj.
Variable state_dict : pyobj -> result (option pyobj).
Variable filter_keys : option pyobj -> option pyobj -> result pyobj.
Variable load_state_dict : pyobj -> pyobj -> result unit.
Variable fit_gpytorch_model : pyobj -> result unit.

Local Notation select_model :=
  (Modeling.select_model SingleTaskGP_transformed SimpleCustomMaternGP
     model_likelihood GaussianLikelihood ExactMarginalLogLikelihood).
Local Notation load_stored_model :=
  (Modeling.load_stored_model state_dict filter_keys load_state_dict).
Local Notation _set_GP_model :=
  (Modeling._set_GP_model SingleTaskGP_transformed SimpleCustomMaternGP
     model_likelihood GaussianLikelihood ExactMarginalLogLikelihood state_dict
     filter_keys load_state_dict fit_gpytorch_model).

(** The instance once the three objects are stored. *)
Local Notation stored model_obj lh ll self :=
  (set_model
     (ModelDict.mk (ModelDict.model_type (model self))
        (Some model_obj) (Some lh) (Some ll)
        (ModelDict.covars_proposed_iter (model self))
        (ModelDict.covars_sampled_iter (model self))
        (ModelDict.response_sampled_iter (model self)))
     self).

Lemma select_model_state (kwargs_nu : option float) (self : instance) :
  snd (select_model kwargs_nu self) = self.
Proof.
  unfold Modeling.select_model, bind, get_attr, lift, ret, raise.
  destruct (String.eqb _ "SingleTaskGP").
  - destruct (SingleTaskGP_transformed _ _ _) as [m|e]; [|reflexivity].
    destruct (model_likelihood m) as [lh|e]; [|reflexivity].
    now destruct (ExactMarginalLogLikelihood lh m).
  - destruct (String.eqb _ "Custom"); [|reflexivity].
    destruct (SimpleCustomMaternGP _ _ _ _) as [m|e]; [|reflexivity].
    destruct (GaussianLikelihood tt) as [lh|e]; [|reflexivity].
    now destruct (ExactMarginalLogLikelihood lh m).
Qed.

Lemma load_stored_model_state (model_obj : pyobj) (self : instance) :
  snd (load_stored_model model_obj self) = self.
Proof.
  unfold Modeling.load_stored_model, bind, get_attr, lift, ret.
  destruct (ModelDict.model (model self)) as [previous|]; [|reflexivity].
  destruct (state_dict previous) as [[sd|]|e]; try reflexivity.
  destruct (state_dict model_obj) as [model_dict|e]; [|reflexivity].
  now destruct (filter_keys (Some sd) model_dict).
Qed.

(** [_set_GP_model] step by step: no step before the last one writes. *)
Lemma set_GP_model_steps (kwargs_nu : option float) (self : instance) :
  _set_GP_model kwargs_nu self
  = match fst (select_model kwargs_nu self) with
    | Err e => (Err e, self)
    | Ok (model_obj, lh, ll) =>
        match fst (load_stored_model model_obj self) with
        | Err e => (Err e, self)
        | Ok _ =>
            match fit_gpytorch_model ll with
            | Err e => (Err e, self)
            | Ok _ =>
                (Ok "Successfully trained GP model"%string,
                 stored model_obj lh ll self)
            end
        end
    end.
Proof.
  unfold Modeling._set_GP_model. unfold bind at 1.
  pose proof (select_model_state kwargs_nu self) as Hselect.
  destruct (select_model kwargs_nu self) as [[[[model_obj lh] ll]|e] self1].
  2: { simpl in *. now subst. }
  simpl in Hselect. subst self1. simpl fst. cbv iota.
  unfold bind at 1.
  pose proof (load_stored_model_state model_obj self) as Hload.
  destruct (load_stored_model model_obj self) as [[[]|e] self2].
  2: { simpl in *. now subst. }
  simpl in Hload. subst self2. simpl fst. cbv iota.
  unfold bind, lift, set_attr, ret.
  now destruct (fit_gpytorch_model ll) as [[]|e].
Qed.

Lemma select_model_known_type (kwargs_nu : option float) (self : instance)
    (selected : pyobj * pyobj * pyobj) :
  fst (select_model kwargs_nu self) = Ok selected ->
  ModelDict.model_type (model self) = "SingleTaskGP"%string
  \/ ModelDict.model_type (model self) = "Custom"%string.
Proof.
  unfold Modeling.select_model, bind, get_attr, raise.
  destruct (String.eqb_spec (ModelDict.model_type (model self)) "SingleTaskGP");
    [now left|].
  destruct (String.eqb_spec (ModelDict.model_type (model self)) "Custom");
    [now right | discriminate].
Qed.

(** Without a stored model no state dictionary is read or loaded. *)
Lemma load_stored_model_none (model_obj : pyobj) (self : instance) :
  ModelDict.model (model self) = None ->
  load_stored_model model_obj self = (Ok tt, self).
Proof.
  intros Hnone. unfold Modeling.load_stored_model, bind, get_attr, ret.
  now rewrite Hnone.
Qed.

Lemma select_model_with_nu (kwargs_nu value : option float) (self : instance) :
  fst (select_model kwargs_nu (with_nu value self))
  = fst (select_model kwargs_nu self).
Proof.
  unfold Modeling.select_model, bind, get_attr, lift, ret, raise.
  change (model (with_nu value self)) with (model self).
  change (train_X (with_nu value self)) with (train_X self).
  change (train_Y (with_nu value self)) with (train_Y self).
  change (GP_kernel_mapping_covar_identification (with_nu value self))
    with (GP_kernel_mapping_covar_identification self).
  destruct (String.eqb _ "SingleTaskGP").
  - destruct (SingleTaskGP_transformed _ _ _) as [m|e]; [|reflexivity].
    destruct (model_likelihood m) as [lh|e]; [|reflexivity].
    now destruct (ExactMarginalLogLikelihood lh m).
  - destruct (String.eqb _ "Custom"); [|reflexivity].
    destruct (SimpleCustomMaternGP _ _ _ _) as [m|e]; [|reflexivity].
    destruct (GaussianLikelihood tt) as [lh|e]; [|reflexivity].
    now destruct (ExactMarginalLogLikelihood lh m).
Qed.

Lemma load_stored_model_with_nu (model_obj : pyobj) (value : option float)
    (self : instance) :
  fst (load_stored_model model_obj (with_nu value self))
  = fst (load_stored_model model_obj self).
Proof.
  unfold Modeling.load_stored_model, bind, get_attr, lift, ret.
  change (model (with_nu value self)) with (model self).
  destruct (ModelDict.model (model self)) as [previous|]; [|reflexivity].
  destruct (state_dict previous) as [[sd|]|e]; try reflexivity.
  destruct (state_dict model_obj) as [model_dict|e]; [|reflexivity].
  now destruct (filter_keys (Some sd) model_dict).
Qed.

(** X12: when [_set_GP_model] raises, whichever call raised (the model
    constructor, the likelihood, the loading of a stored state dictionary
    or the fit), the instance is left exactly as it was: the three entries
    of [self.model] are written only after the fit has succeeded. *)
Theorem set_GP_model_raises_unchanged (kwargs_nu : option float)
    (self self' : instance) (e : exn) :
  _set_GP_model kwargs_nu self = (Err e, self') -> self' = self.
Proof.
  rewrite set_GP_model_steps.
  destruct (fst (select_model kwargs_nu self)) as [[[model_obj lh] ll]|e1].
  - destruct (fst (load_stored_model model_obj self)) as [[]|e2].
    + destruct (fit_gpytorch_model ll) as [[]|e3]; [discriminate|].
      now intros H; injection H.
    + now intros H; injection H.
  - now intros H; injection H.
Qed.

(** X13: when [_set_GP_model] returns, it returns "Successfully trained GP
    model", the model type is 'SingleTaskGP' or 'Custom', and the instance
    differs from the one before in three entries of [self.model] only:
    ["model"], ["likelihood"] and ["loglikelihood"] now hold objects; the
    model type, the three iteration counters and every other attribute are
    kept. *)
Theorem set_GP_model_returns (kwargs_nu : option float) (self self' : instance)
    (answer : string) :
  _set_GP_model kwargs_nu self = (Ok answer, self') ->
  answer = "Successfully trained GP model"%string
  /\ (ModelDict.model_type (model self) = "SingleTaskGP"%string
      \/ ModelDict.model_type (model self) = "Custom"%string)
  /\ exists model_obj lh ll, self' = stored model_obj lh ll self.
Proof.
  rewrite set_GP_model_steps.
  destruct (fst (select_model kwargs_nu self)) as [[[model_obj lh] ll]|e1] eqn:Hselect;
    [|discriminate].
  destruct (fst (load_stored_model model_obj self)) as [[]|e2]; [|discriminate].
  destruct (fit_gpytorch_model ll) as [[]|e3]; [|discriminate].
  intros H. injection H as <- <-.
  split; [reflexivity|]. split.
  - eapply select_model_known_type; eassumption.
  - now exists model_obj, lh, ll.
Qed.

(** X14: [_set_GP_model] never reads [self.nu], the value stored at
    construction: with another value there it gives the same result and
    writes the same entries.  The keyword argument [nu] is what it reads,
    and only for the model type 'Custom': for 'SingleTaskGP' the call does
    the same whatever [nu] is passed. *)
Theorem set_GP_model_ignores_stored_nu (kwargs_nu : option float)
    (self : instance) :
  (forall value : option float,
     _set_GP_model kwargs_nu (with_nu value self)
     = (fst (_set_GP_model kwargs_nu self),
        with_nu value (snd (_set_GP_model kwargs_nu self))))
  /\ (ModelDict.model_type (model self) = "SingleTaskGP"%string ->
      forall other_nu : option float,
        _set_GP_model other_nu self = _set_GP_model kwargs_nu self).
Proof.
  split.
  - intros value. rewrite !set_GP_model_steps.
    rewrite select_model_with_nu.
    destruct (fst (select_model kwargs_nu self)) as [[[model_obj lh] ll]|e1];
      [|reflexivity].
    rewrite load_stored_model_with_nu.
    destruct (fst (load_stored_model model_obj self)) as [[]|e2]; [|reflexivity].
    now destruct (fit_gpytorch_model ll) as [[]|e3].
  - intros Htype other_nu. rewrite !set_GP_model_steps.
    assert (Hselect : select_model other_nu self = select_model kwargs_nu self).
    { unfold Modeling.select_model, bind, get_attr. now rewrite Htype. }
    now rewrite Hselect.
Qed.

(** The first fit: with no stored model, the steps without the loading. *)
Lemma set_GP_model_no_stored_model (kwargs_nu : option float) (self : instance) :
  ModelDict.model (model self) = None ->
  _set_GP_model kwargs_nu self
  = match fst (select_model kwargs_nu self) with
    | Err e => (Err e, self)
    | Ok (model_obj, lh, ll) =>
        match fit_gpytorch_model ll with
        | Err e => (Err e, self)
        | Ok _ =>
            (Ok "Successfully trained GP model"%string,
             stored model_obj lh ll self)
        end
    end.
Proof.
  intros Hnone. rewrite set_GP_model_steps.
  destruct (fst (select_model kwargs_nu self)) as [[[model_obj lh] ll]|e];
    [|reflexivity].
  now rewrite (load_stored_model_none model_obj self Hnone).
Qed.

End SetGPModel.

(** X15: on an instance that holds no model yet ([self.model["model"]] is
    [None]), [_set_GP_model] reads and loads no state dictionary: it does
    what it does with any other [state_dict], key filter and
    [load_state_dict]. *)
Theorem set_GP_model_first_fit
    (SingleTaskGP_transformed :
       option tensor_2d -> option tensor_col -> option pyobj -> result pyobj)
    (SimpleCustomMaternGP :
       option tensor_2d -> option tensor_col -> option float -> option pyobj ->
       result pyobj)
    (model_likelihood : pyobj -> result pyobj)
    (GaussianLikelihood : unit -> result pyobj)
    (ExactMarginalLogLikelihood : pyobj -> pyobj -> result pyobj)
    (state_dict state_dict' : pyobj -> result (option pyobj))
    (filter_keys filter_keys' : option pyobj -> option pyobj -> result pyobj)
    (load_state_dict load_state_dict' : pyobj -> pyobj -> result unit)
    (fit_gpytorch_model : pyobj -> result unit)
    (kwargs_nu : option float) (self : instance) :
  ModelDict.model (model self) = None ->
  Modeling._set_GP_model SingleTaskGP_transformed SimpleCustomMaternGP
    model_likelihood GaussianLikelihood ExactMarginalLogLikelihood state_dict
    filter_keys load_state_dict fit_gpytorch_model kwargs_nu self
  = Modeling._set_GP_model SingleTaskGP_transformed SimpleCustomMaternGP
      model_likelihood GaussianLikelihood ExactMarginalLogLikelihood state_dict'
      filter_keys' load_state_dict' fit_gpytorch_model kwargs_nu self.
Proof.
  intros Hnone.
  now rewrite !set_GP_model_no_stored_model by assumption.
Qed.

Lemma set_GP_model_raises_unchanged_witness :
  snd (Modeling._set_GP_model
         (fun _ _ _ => Ok (ObjRef 1)) (fun _ _ _ _ => Ok (ObjRef 2))
         (fun _ => Ok (ObjRef 3)) (fun _ => Ok (ObjRef 4))
         (fun _ _ => Ok (ObjRef 5)) (fun _ => Ok None)
         (fun _ _ => Ok (ObjRef 6)) (fun _ _ => Ok tt)
         (fun _ => Fixtures.unavailable)
         None (Fixtures.project "Custom" None))
  = Fixtures.project "Custom" None.
Proof.
  apply (set_GP_model_raises_unchanged
           (fun _ _ _ => Ok (ObjRef 1)) (fun _ _ _ _ => Ok (ObjRef 2))
           (fun _ => Ok (ObjRef 3)) (fun _ => Ok (ObjRef 4))
           (fun _ _ => Ok (ObjRef 5)) (fun _ => Ok None)
           (fun _ _ => Ok (ObjRef 6)) (fun _ _ => Ok tt)
           (fun _ => Fixtures.unavailable)
           None (Fixtures.project "Custom" None) _
           (RuntimeError [Lit "collaborator not available"])).
  reflexivity.
Defined.

Lemma set_GP_model_returns_witness :
  exists model_obj lh ll,
    snd (Modeling._set_GP_model
           (fun _ _ _ => Ok (ObjRef 1)) (fun _ _ _ _ => Ok (ObjRef 2))
           (fun _ => Ok (ObjRef 3)) (fun _ => Ok (ObjRef 4))
           (fun _ _ => Ok (ObjRef 5)) (fun _ => Ok None)
           (fun _ _ => Ok (ObjRef 6)) (fun _ _ => Ok tt)
           (fun _ => Ok tt)
           None (Fixtures.project "SingleTaskGP" None))
    = set_model (ModelDict.mk "SingleTaskGP" (Some model_obj) (Some lh) (Some ll) 0 0 0)
        (Fixtures.project "SingleTaskGP" None).
Proof.
  apply (set_GP_model_returns
           (fun _ _ _ => Ok (ObjRef 1)) (fun _ _ _ _ => Ok (ObjRef 2))
           (fun _ => Ok (ObjRef 3)) (fun _ => Ok (ObjRef 4))
           (fun _ _ => Ok (ObjRef 5)) (fun _ => Ok None)
           (fun _ _ => Ok (ObjRef 6)) (fun _ _ => Ok tt)
           (fun _ => Ok tt)
           None (Fixtures.project "SingleTaskGP" None) _
           "Successfully trained GP model"%string).
  reflexivity.
Defined.

Lemma set_GP_model_ignores_stored_nu_witness :
  Modeling._set_GP_model
    (fun _ _ _ => Ok (ObjRef 1)) (fun _ _ _ _ => Ok (ObjRef 2))
    (fun _ => Ok (ObjRef 3)) (fun _ => Ok (ObjRef 4))
    (fun _ _ => Ok (ObjRef 5)) (fun _ => Ok None)
    (fun _ _ => Ok (ObjRef 6)) (fun _ _ => Ok tt)
    (fun _ => Ok tt)
    (Some 2.5%float) (Fixtures.project "SingleTaskGP" None)
  = Modeling._set_GP_model
      (fun _ _ _ => Ok (ObjRef 1)) (fun _ _ _ _ => Ok (ObjRef 2))
      (fun _ => Ok (ObjRef 3)) (fun _ => Ok (ObjRef 4))
      (fun _ _ => Ok (ObjRef 5)) (fun _ => Ok None)
      (fun _ _ => Ok (ObjRef 6)) (fun _ _ => Ok tt)
      (fun _ => Ok tt)
      None (Fixtures.project "SingleTaskGP" None).
Proof.
  apply (proj2 (set_GP_model_ignores_stored_nu
                  (fun _ _ _ => Ok (ObjRef 1)) (fun _ _ _ _ => Ok (ObjRef 2))
                  (fun _ => Ok (ObjRef 3)) (fun _ => Ok (ObjRef 4))
                  (fun _ _ => Ok (ObjRef 5)) (fun _ => Ok None)
                  (fun _ _ => Ok (ObjRef 6)) (fun _ _ => Ok tt)
                  (fun _ => Ok tt)
                  None (Fixtures.project "SingleTaskGP" None))).
  reflexivity.
Defined.

Lemma set_GP_model_first_fit_witness :
  Modeling._set_GP_model
    (fun _ _ _ => Ok (ObjRef 1)) (fun _ _ _ _ => Ok (ObjRef 2))
    (fun _ => Ok (ObjRef 3)) (fun _ => Ok (ObjRef 4))
    (fun _ _ => Ok (ObjRef 5)) (fun _ => Ok None)
    (fun _ _ => Ok (ObjRef 6)) (fun _ _ => Ok tt)
    (fun _ => Ok tt)
    None (Fixtures.project "Custom" None)
  = Modeling._set_GP_model
      (fun _ _ _ => Ok (ObjRef 1)) (fun _ _ _ _ => Ok (ObjRef 2))
      (fun _ => Ok (ObjRef 3)) (fun _ => Ok (ObjRef 4))
      (fun _ _ => Ok (ObjRef 5)) (fun _ => Fixtures.unavailable)
      (fun _ _ => Fixtures.unavailable) (fun _ _ => Fixtures.unavailable)
      (fun _ => Ok tt)
      None (Fixtures.project "Custom" None).
Proof.
  apply (set_GP_model_first_fit
           (fun _ _ _ => Ok (ObjRef 1)) (fun _ _ _ _ => Ok (ObjRef 2))
           (fun _ => Ok (ObjRef 3)) (fun _ => Ok (ObjRef 4))
           (fun _ _ => Ok (ObjRef 5))
           (fun _ => Ok None) (fun _ => Fixtures.unavailable)
           (fun _ _ => Ok (ObjRef 6)) (fun _ _ => Fixtures.unavailable)
           (fun _ _ => Ok tt) (fun _ _ => Fixtures.unavailable)
           (fun _ => Ok tt)
           None (Fixtures.project "Custom" None)).
  reflexivity.
Defined.

(** ** [__init__]: what the constructor checks *)

Section Constructor.

Variable cuda_is_available : bool.
Variable initialize_from_covars : pyval -> result (tensor_2d * tensor_2d).
Variable initialize_training_data :
  option tensor_2d -> option tensor_col ->
  result (option tensor_2d * option tensor_col * option tensor_2d).
Variable initialize_best_response :
  option tensor_2d -> option tensor_col ->
  result (option tensor_col * option tensor_2d).

Local Notation __init__ :=
  (CreativeProject.__init__ cuda_is_available initialize_from_covars
     initialize_training_data initialize_best_response).

(** What [__init__] itself stores in the instance it returns. *)
Lemma init_stores (covars : pyval) (model_type acq_func_type : string)
    (kw : CreativeProject.kwargs) (self : instance) :
  __init__ covars model_type acq_func_type kw = Ok self ->
  model self = ModelDict.mk model_type None None None 0 0 0
  /\ acq_func self = AcqFuncDict.mk acq_func_type None
  /\ sampling self = SamplingDict.mk "manual" None
  /\ nu self = CreativeProject.kw_nu kw.
Proof.
  unfold CreativeProject.__init__.
  destruct (initialize_from_covars covars) as [[guess bounds]|e]; [|discriminate].
  simpl.
  destruct (initialize_training_data _ _) as [[[X Y] P]|e]; [|discriminate].
  simpl.
  destruct (initialize_best_response X Y) as [[best best_covars]|e]; [|discriminate].
  simpl. intros H. injection H as <-. repeat split.
Qed.

(** X16: the constructor does not check the name of the acquisition
    function.  Whenever [__init__] builds an instance with one name it
    builds the same instance, but for that entry, with any other name,
    stored as [acq_func["type"]] with no acquisition object yet. *)
Theorem init_any_acq_func (covars : pyval) (model_type name name' : string)
    (kw : CreativeProject.kwargs) (self : instance) :
  __init__ covars model_type name kw = Ok self ->
  __init__ covars model_type name' kw = Ok (with_acq_func_type name' self)
  /\ acq_func (with_acq_func_type name' self) = AcqFuncDict.mk name' None.
Proof.
  intros Hinit.
  destruct (init_stores covars model_type name kw self Hinit) as (_ & Hacq & _).
  unfold with_acq_func_type. rewrite Hacq. simpl. split; [|reflexivity].
  revert Hinit. unfold CreativeProject.__init__.
  destruct (initialize_from_covars covars) as [[guess bounds]|e]; [|discriminate].
  simpl.
  destruct (initialize_training_data _ _) as [[[X Y] P]|e]; [|discriminate].
  simpl.
  destruct (initialize_best_response X Y) as [[best best_covars]|e]; [|discriminate].
  simpl. intros H. injection H as <-. reflexivity.
Qed.

End Constructor.

Lemma init_any_acq_func_witness :
  CreativeProject.__init__ false Fixtures.from_covars_1d Fixtures.no_training_data
    Fixtures.no_best_response
    (PyList [PyTuple [PyFloat 0.0; PyFloat (-2.0); PyFloat 2.0]])
    "SingleTaskGP" "UCB" (CreativeProject.mkKwargs None None None)
  = Ok (with_acq_func_type "UCB" (Fixtures.project "SingleTaskGP" None)).
Proof.
  apply (init_any_acq_func false Fixtures.from_covars_1d Fixtures.no_training_data
           Fixtures.no_best_response
           (PyList [PyTuple [PyFloat 0.0; PyFloat (-2.0); PyFloat 2.0]])
           "SingleTaskGP"%string "EI"%string "UCB"%string
           (CreativeProject.mkKwargs None None None)
           (Fixtures.project "SingleTaskGP" None)).
  reflexivity.
Defined.

(** X17: right after construction [_set_GP_model] loads nothing: on the
    instance [__init__] returns, [self.model["model"]] is [None], so the
    first call builds and fits a model without reading any state
    dictionary, whatever [state_dict], key filter and [load_state_dict]
    are. *)
Theorem init_then_set_GP_model
    (cuda_is_available : bool)
    (initialize_from_covars : pyval -> result (tensor_2d * tensor_2d))
    (initialize_training_data :
       option tensor_2d -> option tensor_col ->
       result (option tensor_2d * option tensor_col * option tensor_2d))
    (initialize_best_response :
       option tensor_2d -> option tensor_col ->
       result (option tensor_col * option tensor_2d))
    (SingleTaskGP_transformed :
       option tensor_2d -> option tensor_col -> option pyobj -> result pyobj)
    (SimpleCustomMaternGP :
       option tensor_2d -> option tensor_col -> option float -> option pyobj ->
       result pyobj)
    (model_likelihood : pyobj -> result pyobj)
    (GaussianLikelihood : unit -> result pyobj)
    (ExactMarginalLogLikelihood : pyobj -> pyobj -> result pyobj)
    (state_dict state_dict' : pyobj -> result (option pyobj))
    (filter_keys filter_keys' : option pyobj -> option pyobj -> result pyobj)
    (load_state_dict load_state_dict' : pyobj -> pyobj -> result unit)
    (fit_gpytorch_model : pyobj -> result unit)
    (covars : pyval) (model_type acq_func_type : string)
    (kw : CreativeProject.kwargs) (kwargs_nu : option float) (self : instance) :
  CreativeProject.__init__ cuda_is_available initialize_from_covars
    initialize_training_data initialize_best_response
    covars model_type acq_func_type kw = Ok self ->
  ModelDict.model (model self) = None
  /\ Modeling._set_GP_model SingleTaskGP_transformed SimpleCustomMaternGP
       model_likelihood GaussianLikelihood ExactMarginalLogLikelihood state_dict
       filter_keys load_state_dict fit_gpytorch_model kwargs_nu self
     = Modeling._set_GP_model SingleTaskGP_transformed SimpleCustomMaternGP
         model_likelihood GaussianLikelihood ExactMarginalLogLikelihood state_dict'
         filter_keys' load_state_dict' fit_gpytorch_model kwargs_nu self.
Proof.
  intros Hinit.
  destruct (init_stores _ _ _ _ _ _ _ _ _ Hinit) as (Hmodel & _).
  assert (Hnone : ModelDict.model (model self) = None) by now rewrite Hmodel.
  split; [assumption|].
  now rewrite !set_GP_model_no_stored_model by assumption.
Qed.

Lemma init_then_set_GP_model_witness :
  ModelDict.model (model (Fixtures.project "Custom" None)) = None.
Proof.
  apply (init_then_set_GP_model false Fixtures.from_covars_1d
           Fixtures.no_training_data Fixtures.no_best_response
           (fun _ _ _ => Ok (ObjRef 1)) (fun _ _ _ _ => Ok (ObjRef 2))
           (fun _ => Ok (ObjRef 3)) (fun _ => Ok (ObjRef 4))
           (fun _ _ => Ok (ObjRef 5))
           (fun _ => Ok None) (fun _ => Fixtures.unavailable)
           (fun _ _ => Ok (ObjRef 6)) (fun _ _ => Fixtures.unavailable)
           (fun _ _ => Ok tt) (fun _ _ => Fixtures.unavailable)
           (fun _ => Ok tt)
           (PyList [PyTuple [PyFloat 0.0; PyFloat (-2.0); PyFloat 2.0]])
           "Custom"%string "EI"%string (CreativeProject.mkKwargs None None None)
           None (Fixtures.project "Custom" None)).
  reflexivity.
Defined.
